(** * pulumi-talos-cluster: the two Pulumi programs and the shell they run

    The repository holds two Go programs ([main.go], the Docker variant, and
    a second [main] that first provisions a Lima VM).  Each registers a list
    of [local.Command] resources whose [Create] and [Delete] fields are shell
    scripts built with [fmt.Sprintf].  This development embeds

    - the Go side: [Sprintf], [filepath.Join], the [CommandArgs] of every
      resource and the [DependsOn] lists;
    - the shell side: a syntax for the fragment of POSIX shell the scripts
      use, a printer that gives back the script text, and an interpreter
      over an abstract host (the external tools [talosctl], [kubectl],
      [limactl], [docker], [mkdir], [rm]);
    - the step executor that runs the create actions in dependency order. *)

From stdpp Require Import gmap strings list.
From Stdlib Require Import Ascii DecimalString DecimalNat.

Set Default Proof Using "Type".

(** ** Characters and text helpers *)

Module Text.

Definition nl : string := String "010" "".
Definition tab : string := String "009" "".
Definition dq : string := String "034" "".
Definition bsl : string := String "092" "".

(** A Go raw string literal cannot contain a backquote, so the script
    texts below are written with a backquote wherever the Go source has a
    double quote; [q] puts the double quotes back. *)
Fixpoint q (s : string) : string :=
  match s with
  | "" => ""
  | String "`" rest => String "034" (q rest)
  | String c rest => String c (q rest)
  end.

Fixpoint tabs (n : nat) : string :=
  match n with
  | 0 => ""
  | S n => String "009" (tabs n)
  end.

Fixpoint spaces (n : nat) : string :=
  match n with
  | 0 => ""
  | S n => String " " (spaces n)
  end.

(** [starts p s]: [p] is a prefix of [s]. *)
Fixpoint starts (p s : string) : bool :=
  match p, s with
  | "", _ => true
  | String a p', String b s' => if Ascii.eqb a b then starts p' s' else false
  | String _ _, "" => false
  end.

(** [contains p s]: [p] occurs in [s] (fixed-string search). *)
Fixpoint contains (p s : string) : bool :=
  if starts p s then true
  else match s with
       | "" => false
       | String _ s' => contains p s'
       end.

(** The lines of a text: pieces between newlines; a final newline does not
    open an empty last line. *)
Fixpoint lines_go (cur : string → string) (s : string) : list string :=
  match s with
  | "" => match cur "" with "" => [] | l => [l] end
  | String "010" rest => cur "" :: lines_go (λ k, k) rest
  | String c rest => lines_go (λ k, cur (String c k)) rest
  end.
Definition lines (s : string) : list string := lines_go (λ k, k) s.

Fixpoint unlines (ls : list string) : string :=
  match ls with
  | [] => ""
  | l :: ls => l +:+ nl +:+ unlines ls
  end.

Fixpoint unwords (ws : list string) : string :=
  match ws with
  | [] => ""
  | [w] => w
  | w :: ws => w +:+ " " +:+ unwords ws
  end.

(** Number of newline characters, as [wc -l] counts them. *)
Fixpoint newlines (s : string) : nat :=
  match s with
  | "" => 0
  | String "010" rest => S (newlines rest)
  | String _ rest => newlines rest
  end.

(** Remove every character of [set] (the work of [tr -d set]). *)
Fixpoint delete_chars (set s : string) : string :=
  match s with
  | "" => ""
  | String c rest =>
      if contains (String c "") set then delete_chars set rest
      else String c (delete_chars set rest)
  end.

(** Command substitution drops all trailing newlines. *)
Fixpoint chomp (s : string) : string :=
  match s with
  | "" => ""
  | String c rest =>
      match c, chomp rest with
      | "010"%char, "" => ""
      | _, r => String c r
      end
  end.

Definition is_blank (c : ascii) : bool :=
  Ascii.eqb c " " || Ascii.eqb c "009" || Ascii.eqb c "010".

(** Field splitting on the default IFS (space, tab, newline). *)
Fixpoint fields_go (cur : option string) (s : string) : list string :=
  match s with
  | "" => match cur with Some w => [w] | None => [] end
  | String c rest =>
      if is_blank c then
        match cur with
        | Some w => w :: fields_go None rest
        | None => fields_go None rest
        end
      else
        fields_go (Some (match cur with Some w => w +:+ String c "" | None => String c "" end)) rest
  end.
Definition fields (s : string) : list string := fields_go None s.

(** Decimal numerals. *)
Definition itoa (n : nat) : string := NilZero.string_of_uint (Nat.to_uint n).
Definition atoi (s : string) : option nat :=
  match NilZero.uint_of_string s with
  | Some d => Some (Nat.of_uint d)
  | None => None
  end.

(** A text made of decimal digits. *)
Definition digit (c : ascii) : bool := contains (String c "") "0123456789".

Fixpoint digits (s : string) : bool :=
  match s with
  | "" => true
  | String c rest => digit c && digits rest
  end.

(** A text of letters, digits and the characters [/ . _ -].  Written in a
    script without quotes, such a text is one word for the shell, and the
    word is the text itself: it has no blank to split at and no character
    the shell expands or takes as syntax. *)
Definition plain_char (c : ascii) : bool :=
  contains (String c "")
    "abcdefghijklmnopqrstuvwxyzABCDEFGHIJKLMNOPQRSTUVWXYZ0123456789/._-".

Fixpoint plain (s : string) : bool :=
  match s with
  | "" => true
  | String c rest => plain_char c && plain rest
  end.

End Text.

Arguments Text.lines : simpl never.
Arguments Text.fields : simpl never.
Arguments Text.itoa : simpl never.

(** ** The Go library calls the programs make *)

Module Go.
Import Text.

(** [fmt.Sprintf] restricted to the [%s] verb, the only one the two
    programs use.  A verb without operand prints [%!s(MISSING)]; operands
    without verb are listed after the text as [%!(EXTRA string=...)]. *)
Fixpoint extra_go (a : list string) : string :=
  match a with
  | [] => ""
  | [x] => "string=" +:+ x
  | x :: a' => "string=" +:+ x +:+ ", " +:+ extra_go a'
  end.
Definition extra (a : list string) : string :=
  match a with
  | [] => ""
  | _ => "%!(EXTRA " +:+ extra_go a +:+ ")"
  end.

Fixpoint Sprintf (format : string) (a : list string) : string :=
  match format with
  | "" => extra a
  | String "%" (String "s" rest) =>
      match a with
      | x :: a' => x +:+ Sprintf rest a'
      | [] => "%!s(MISSING)" +:+ Sprintf rest []
      end
  | String c rest => String c (Sprintf rest a)
  end.

(** The elements of a path: the pieces between slashes. *)
Fixpoint elements (path : string) : list string :=
  match path with
  | "" => [""]
  | String c rest =>
      if Ascii.eqb c "/" then "" :: elements rest
      else
        match elements rest with
        | e :: es => String c e :: es
        | [] => [String c ""]
        end
  end.

(** One step of [filepath.Clean]: [out] holds the elements kept so far,
    the last one first.  An empty element and [.] are dropped; [..] takes
    away the element before it, is dropped at the root, and is kept where a
    relative path has nothing left to take away. *)
Definition keep (rooted : bool) (out : list string) (e : string) : list string :=
  if String.eqb e "" || String.eqb e "." then out
  else if String.eqb e ".." then
    match out with
    | top :: below => if String.eqb top ".." then e :: out else below
    | [] => if rooted then [] else [e]
    end
  else e :: out.

(** [filepath.Clean] with the slash as separator: the shortest path that
    names the same file by its text; the empty path becomes [.]. *)
Definition Clean (path : string) : string :=
  let rooted := starts "/" path in
  let out := String.concat "/" (rev (foldl (keep rooted) [] (elements path))) in
  if rooted then "/" +:+ out
  else if String.eqb out "" then "." else out.

(** [filepath.Join]: the elements from the first non-empty one on, joined
    with slashes and cleaned; the empty text when there is none. *)
Definition Join (elem : list string) : string :=
  match List.filter (λ e, negb (String.eqb e "")) elem with
  | [] => ""
  | es => Clean (String.concat "/" es)
  end.

(** An element that [Clean] keeps as it is. *)
Definition named (e : string) : bool :=
  negb (String.eqb e "" || String.eqb e "." || String.eqb e "..").

(** An absolute path that is clean and not the root: a slash before
    each of its elements, at least one. *)
Definition tidy (path : string) : bool :=
  match elements path with
  | "" :: e :: es => forallb named (e :: es)
  | _ => false
  end.

End Go.

(** ** Shell syntax

    The fragment of shell the scripts are written in.  Blank lines and
    comments are kept in the syntax so that [text] gives back the script
    character for character. *)

Module Sh.
Import Text.

(** Inside double quotes: literal text or a variable reference [$x]. *)
Inductive dpart :=
  | DLit (s : string)
  | DVar (x : string).

Inductive word :=
  | Lit (s : string)            (* unquoted *)
  | SQ (s : string)             (* 'single quoted' *)
  | DQ (ps : list dpart).       (* "double quoted" *)

Inductive redir :=
  | OutNull                     (* >/dev/null *)
  | ErrOut                      (* 2>&1 *)
  | ErrNull                     (* 2>/dev/null *)
  | OutFile (path : word)       (* > path *)
  | Here (tag content : string). (* <<'tag', then the content, then tag *)

(** What stands on the line of a simple command, in order. *)
Inductive item :=
  | W (w : word)                (* command name or argument *)
  | Assign (x : string) (w : word) (* x=w before the command name *)
  | R (r : redir)
  | Cont.                       (* backslash-newline and one more tab *)

Inductive cmd :=
  | Simple (items : list item)
  | Export (x : string) (w : word)      (* export x=w *)
  | Pipe (l r : cmd)                    (* l | r *)
  | OrElse (l r : cmd)                  (* l || r *)
  | AndAlso (l r : cmd)                 (* l && r *)
  | Capture (x : string) (c : cmd)      (* x=$(c) *)
  | If (c : cmd) (t : script)           (* if c; then t fi *)
  | IfElse (c : cmd) (t e : script)     (* if c; then t else e fi *)
  | For (x : string) (gen : cmd) (body : script) (* for x in $(gen); do body done *)
with script :=
  | Done
  | Blank (rest : script)
  | Comment (text : string) (rest : script)
  | Run (c : cmd) (rest : script).

Scheme cmd_script_ind := Induction for cmd Sort Prop
  with script_cmd_ind := Induction for script Sort Prop.
Combined Scheme syntax_ind from cmd_script_ind, script_cmd_ind.

(** A [Create] or [Delete] field is either a Go raw string (a script on
    lines of its own, indented like the Go code around it) or a one-line
    interpreted string. *)
Inductive source :=
  | Raw (s : script)
  | OneLine (c : cmd).

(** *** Printing

    Every printer takes the text [k] that follows, so the result is built
    front to back. *)

Definition dpart_text (p : dpart) (k : string) : string :=
  match p with
  | DLit s => s +:+ k
  | DVar x => "$" +:+ x +:+ k
  end.

Definition word_text (w : word) (k : string) : string :=
  match w with
  | Lit s => s +:+ k
  | SQ s => "'" +:+ s +:+ "'" +:+ k
  | DQ ps => dq +:+ foldr dpart_text (dq +:+ k) ps
  end.

Definition redir_text (r : redir) (k : string) : string :=
  match r with
  | OutNull => ">/dev/null" +:+ k
  | ErrOut => "2>&1" +:+ k
  | ErrNull => "2>/dev/null" +:+ k
  | OutFile p => "> " +:+ word_text p k
  | Here tag _ => "<<'" +:+ tag +:+ "'" +:+ k
  end.

Definition item_text (n : nat) (it : item) (k : string) : string :=
  match it with
  | W w => word_text w k
  | Assign x w => x +:+ "=" +:+ word_text w k
  | R r => redir_text r k
  | Cont => bsl +:+ nl +:+ tabs (S n) +:+ k
  end.

Fixpoint items_text (n : nat) (its : list item) (k : string) : string :=
  match its with
  | [] => k
  | [it] => item_text n it k
  | it :: rest =>
      item_text n it
        (match it with Cont => items_text n rest k | _ => " " +:+ items_text n rest k end)
  end.

(** The here-documents opened on a line follow it. *)
Fixpoint items_here (its : list item) (k : string) : string :=
  match its with
  | [] => k
  | R (Here tag content) :: rest => content +:+ tag +:+ nl +:+ items_here rest k
  | _ :: rest => items_here rest k
  end.

Fixpoint cmd_here (c : cmd) (k : string) : string :=
  match c with
  | Simple its => items_here its k
  | Pipe l r | OrElse l r | AndAlso l r => cmd_here l (cmd_here r k)
  | Capture _ c => cmd_here c k
  | _ => k
  end.

Fixpoint cmd_text (n : nat) (c : cmd) (k : string) : string :=
  match c with
  | Simple its => items_text n its k
  | Export x w => "export " +:+ x +:+ "=" +:+ word_text w k
  | Pipe l r => cmd_text n l (" | " +:+ cmd_text n r k)
  | OrElse l r => cmd_text n l (" || " +:+ cmd_text n r k)
  | AndAlso l r => cmd_text n l (" && " +:+ cmd_text n r k)
  | Capture x c => x +:+ "=$(" +:+ cmd_text n c (")" +:+ k)
  | If c t =>
      "if " +:+ cmd_text n c ("; then" +:+ nl +:+
        script_text (S n) t (tabs n +:+ "fi" +:+ k))
  | IfElse c t e =>
      "if " +:+ cmd_text n c ("; then" +:+ nl +:+
        script_text (S n) t (tabs n +:+ "else" +:+ nl +:+
          script_text (S n) e (tabs n +:+ "fi" +:+ k)))
  | For x gen body =>
      "for " +:+ x +:+ " in $(" +:+ cmd_text n gen ("); do" +:+ nl +:+
        script_text (S n) body (tabs n +:+ "done" +:+ k))
  end
with script_text (n : nat) (s : script) (k : string) : string :=
  match s with
  | Done => k
  | Blank rest => nl +:+ script_text n rest k
  | Comment t rest => tabs n +:+ "# " +:+ t +:+ nl +:+ script_text n rest k
  | Run c rest => tabs n +:+ cmd_text n c (nl +:+ cmd_here c (script_text n rest k))
  end.

(** The last here-document of a one-line command ends the string: its
    closing tag has no newline after it. *)
Fixpoint items_here_last (its : list item) : string :=
  match its with
  | [] => ""
  | R (Here tag content) :: rest => nl +:+ content +:+ tag
  | _ :: rest => items_here_last rest
  end.

(** The text of a field.  A raw string opens with a newline after the
    backquote, has its lines at four tabs, and ends with the three tabs
    before the closing backquote. *)
Definition text (src : source) : string :=
  match src with
  | Raw s => nl +:+ script_text 4 s (tabs 3)
  | OneLine (Simple its) => items_text 0 its (items_here_last its)
  | OneLine c => cmd_text 0 c ""
  end.

(** *** Static views of a script *)

(** The script without its comments and blank lines. *)
Fixpoint strip_cmd (c : cmd) : cmd :=
  match c with
  | Pipe l r => Pipe (strip_cmd l) (strip_cmd r)
  | OrElse l r => OrElse (strip_cmd l) (strip_cmd r)
  | AndAlso l r => AndAlso (strip_cmd l) (strip_cmd r)
  | Capture x c => Capture x (strip_cmd c)
  | If c t => If (strip_cmd c) (strip t)
  | IfElse c t e => IfElse (strip_cmd c) (strip t) (strip e)
  | For x gen body => For x (strip_cmd gen) (strip body)
  | c => c
  end
with strip (s : script) : script :=
  match s with
  | Done => Done
  | Blank rest | Comment _ rest => strip rest
  | Run c rest => Run (strip_cmd c) (strip rest)
  end.

(** *** Shorthand for writing scripts down *)

Inductive line :=
  | blank
  | rem (t : string)
  | run (c : cmd).

Fixpoint block (ls : list line) : script :=
  match ls with
  | [] => Done
  | blank :: rest => Blank (block rest)
  | rem t :: rest => Comment t (block rest)
  | run c :: rest => Run c (block rest)
  end.

(** A command of unquoted words. *)
Definition call (ws : list string) : cmd := Simple (map (λ s, W (Lit s)) ws).

(** [echo "..."] with the parts of the double-quoted argument. *)
Definition echo (ps : list dpart) : cmd := Simple [W (Lit "echo"); W (DQ ps)].
Definition say (s : string) : cmd := echo [DLit s].

End Sh.
(** ** The Pulumi resources *)

Module Pulumi.

(** [local.CommandArgs], with the three fields the programs set. *)
Record CommandArgs := {
  Create : string;
  Delete : option string;
  Environment : gmap string string;
}.

(** A [local.NewCommand] call: resource name, arguments and the names of
    the resources given to [pulumi.DependsOn]. *)
Record Resource := {
  name : string;
  args : CommandArgs;
  DependsOn : list string;
}.

(** A resource together with its two scripts read as shell. *)
Record Step := {
  resource : Resource;
  create : Sh.source;
  delete : option Sh.source;
}.

(** The scripts of a step are the texts of its resource. *)
Definition faithful (s : Step) : Prop :=
  Sh.text (create s) = Create (args (resource s)) ∧
  Sh.text <$> delete s = Delete (args (resource s)).

End Pulumi.
(** ** main.go: Talos on the local Docker daemon *)

Module Docker.
Import Text Go Sh Pulumi.

Section Program.
Variable homeDir : string.

Definition clusterName : string := "talos-local".

Definition talosDir : string := Join [homeDir; ".talos"].
Definition talosConfigPath : string := Join [talosDir; "config"].
Definition kubeconfigPath : string := Join [homeDir; ".kube"; "talos-config"].

(** *** The script texts, as the Go source builds them *)

Definition createTalosDir_Create : string :=
  Sprintf (q "mkdir -p %s")
    [talosDir].

Definition createCluster_Create : string :=
  Sprintf (q "
				# Check if cluster already exists
				if /opt/homebrew/bin/talosctl cluster show --name %s >/dev/null 2>&1; then
					echo `Talos cluster '%s' already exists`
					exit 0
				fi

				echo `Creating Talos cluster '%s'...`

				# Create cluster with Docker provisioner
				# 1 control-plane + 2 workers for HA testing
				/opt/homebrew/bin/talosctl cluster create \
					--name %s \
					--controlplanes 1 \
					--workers 2 \
					--wait \
					--wait-timeout 10m

				echo `Talos cluster '%s' created successfully`
			")
    [clusterName; clusterName; clusterName; clusterName; clusterName].

Definition createCluster_Delete : string :=
  Sprintf (q "
				echo `Destroying Talos cluster '%s'...`
				/opt/homebrew/bin/talosctl cluster destroy --name %s 2>/dev/null || true
				echo `Talos cluster '%s' destroyed`
			")
    [clusterName; clusterName; clusterName].

Definition exportKubeconfig_Create : string :=
  Sprintf (q "
				echo `Exporting kubeconfig to %s...`

				# Wait for cluster to be fully ready
				sleep 5

				# Get kubeconfig from Talos
				/opt/homebrew/bin/talosctl kubeconfig %s --force --name %s

				# Verify kubeconfig works
				if kubectl --kubeconfig %s get nodes >/dev/null 2>&1; then
					echo `Kubeconfig exported successfully`
					kubectl --kubeconfig %s get nodes
				else
					echo `Warning: kubectl not able to connect yet, cluster may still be initializing`
				fi
			")
    [kubeconfigPath; kubeconfigPath; clusterName; kubeconfigPath; kubeconfigPath].

Definition exportKubeconfig_Delete : string :=
  Sprintf (q "rm -f %s")
    [kubeconfigPath].

Definition waitForK8s_Create : string :=
  Sprintf (q "
				export KUBECONFIG=%s
				echo `Waiting for Kubernetes nodes to be ready...`

				# Wait for all nodes to be Ready
				for i in $(seq 1 60); do
					READY=$(kubectl get nodes --no-headers 2>/dev/null | grep -c ` Ready ` || echo `0`)
					TOTAL=$(kubectl get nodes --no-headers 2>/dev/null | wc -l | tr -d ' ' || echo `0`)

					if [ `$READY` = `$TOTAL` ] && [ `$TOTAL` -gt 0 ]; then
						echo `All $TOTAL nodes are ready`
						break
					fi

					echo `Waiting for nodes... ($READY/$TOTAL ready)`
					sleep 5
				done

				# Wait for system pods
				echo `Waiting for system pods...`
				kubectl wait --for=condition=Ready pods --all -n kube-system --timeout=300s 2>/dev/null || true

				echo `Kubernetes is ready`
				kubectl get nodes -o wide
			")
    [kubeconfigPath].

Definition applySecurityHardening_Create : string :=
  Sprintf (q "
				export KUBECONFIG=%s
				echo `Applying security hardening...`

				# Label namespaces with Pod Security Standards
				kubectl label namespace kube-system pod-security.kubernetes.io/enforce=privileged --overwrite
				kubectl label namespace kube-system pod-security.kubernetes.io/warn=baseline --overwrite

				kubectl label namespace default pod-security.kubernetes.io/enforce=restricted --overwrite
				kubectl label namespace default pod-security.kubernetes.io/warn=restricted --overwrite

				# Create default deny NetworkPolicy for default namespace
				cat <<'NETPOL' | kubectl apply -f -
apiVersion: networking.k8s.io/v1
kind: NetworkPolicy
metadata:
  name: default-deny-all
  namespace: default
spec:
  podSelector: {}
  policyTypes:
  - Ingress
  - Egress
---
apiVersion: networking.k8s.io/v1
kind: NetworkPolicy
metadata:
  name: allow-dns
  namespace: default
spec:
  podSelector: {}
  policyTypes:
  - Egress
  egress:
  - to:
    - namespaceSelector:
        matchLabels:
          kubernetes.io/metadata.name: kube-system
    ports:
    - protocol: UDP
      port: 53
    - protocol: TCP
      port: 53
NETPOL

				echo `Security hardening applied:`
				echo `- Pod Security Standards: privileged for kube-system, restricted for default`
				echo `- Default NetworkPolicy: deny-all with DNS egress allowed`
			")
    [kubeconfigPath].

Definition verifyCluster_Create : string :=
  Sprintf (q "
				export KUBECONFIG=%s

				echo `=====================================================================`
				echo `Talos Cluster Ready`
				echo `=====================================================================`
				echo ``
				echo `Cluster: %s`
				echo `Kubeconfig: %s`
				echo `Talosconfig: %s`
				echo ``
				echo `Security Features (built into Talos):`
				echo `  - Immutable OS (no shell, no SSH)`
				echo `  - API-only management`
				echo `  - Encryption at rest for etcd`
				echo `  - Secure boot capable`
				echo `  - Minimal attack surface`
				echo ``
				echo `Applied Hardening:`
				echo `  - Pod Security Standards enforced`
				echo `  - Default-deny NetworkPolicies`
				echo ``
				echo `Nodes:`
				kubectl get nodes -o wide
				echo ``
				echo `System Pods:`
				kubectl get pods -n kube-system
				echo ``
				echo `=====================================================================`
				echo `Usage:`
				echo `  export KUBECONFIG=%s`
				echo `  kubectl get nodes`
				echo `  talosctl --talosconfig %s dashboard`
				echo `=====================================================================`
			")
    [kubeconfigPath; clusterName; kubeconfigPath; talosConfigPath; kubeconfigPath; talosConfigPath].

(** *** The resources *)

Definition createTalosDir : Resource := {|
  name := "create-talos-dir";
  args := {| Create := createTalosDir_Create; Delete := None; Environment := ∅ |};
  DependsOn := [];
|}.

Definition createCluster : Resource := {|
  name := "create-talos-cluster";
  args := {| Create := createCluster_Create;
             Delete := Some createCluster_Delete;
             Environment := {[ "TALOSCONFIG" := talosConfigPath ]} |};
  DependsOn := [name createTalosDir];
|}.

Definition exportKubeconfig : Resource := {|
  name := "export-kubeconfig";
  args := {| Create := exportKubeconfig_Create;
             Delete := Some exportKubeconfig_Delete;
             Environment := {[ "TALOSCONFIG" := talosConfigPath ]} |};
  DependsOn := [name createCluster];
|}.

Definition waitForK8s : Resource := {|
  name := "wait-for-kubernetes";
  args := {| Create := waitForK8s_Create; Delete := None;
             Environment := {[ "KUBECONFIG" := kubeconfigPath ]} |};
  DependsOn := [name exportKubeconfig];
|}.

Definition applySecurityHardening : Resource := {|
  name := "apply-security-hardening";
  args := {| Create := applySecurityHardening_Create; Delete := None;
             Environment := {[ "KUBECONFIG" := kubeconfigPath ]} |};
  DependsOn := [name waitForK8s];
|}.

Definition verifyCluster : Resource := {|
  name := "verify-cluster";
  args := {| Create := verifyCluster_Create; Delete := None;
             Environment := {[ "KUBECONFIG" := kubeconfigPath ]} |};
  DependsOn := [name applySecurityHardening];
|}.

(** *** The scripts as shell

    The Go program writes the paths into the scripts as they are, mostly
    without quotes ([mkdir -p %s], [export KUBECONFIG=%s], [rm -f %s]).
    The syntax below reads such a path as one word, [Lit path]: this is
    how the shell reads the text when the home directory is [plain].  With
    another home directory the shell may split the path at a blank or
    expand parts of it, and what [export] does with the pieces depends on
    the shell.  The properties that rest on this reading are stated for a
    plain home directory. *)

Definition talosctl : string := "/opt/homebrew/bin/talosctl".

Definition createTalosDir_create : source :=
  OneLine (Simple [W (Lit "mkdir"); W (Lit "-p"); W (Lit talosDir)]).

Definition cluster_show : cmd :=
  Simple [W (Lit talosctl); W (Lit "cluster"); W (Lit "show");
          W (Lit "--name"); W (Lit clusterName); R OutNull; R ErrOut].

Definition cluster_create : cmd :=
  Simple [W (Lit talosctl); W (Lit "cluster"); W (Lit "create"); Cont;
          W (Lit "--name"); W (Lit clusterName); Cont;
          W (Lit "--controlplanes"); W (Lit "1"); Cont;
          W (Lit "--workers"); W (Lit "2"); Cont;
          W (Lit "--wait"); Cont;
          W (Lit "--wait-timeout"); W (Lit "10m")].

Definition createCluster_create : source :=
  Raw (block [
    rem "Check if cluster already exists";
    run (If cluster_show (block [
      run (say ("Talos cluster '" +:+ clusterName +:+ "' already exists"));
      run (call ["exit"; "0"])]));
    blank;
    run (say ("Creating Talos cluster '" +:+ clusterName +:+ "'..."));
    blank;
    rem "Create cluster with Docker provisioner";
    rem "1 control-plane + 2 workers for HA testing";
    run cluster_create;
    blank;
    run (say ("Talos cluster '" +:+ clusterName +:+ "' created successfully"))]).

Definition cluster_destroy : cmd :=
  OrElse (Simple [W (Lit talosctl); W (Lit "cluster"); W (Lit "destroy");
                  W (Lit "--name"); W (Lit clusterName); R ErrNull])
         (call ["true"]).

Definition createCluster_delete : source :=
  Raw (block [
    run (say ("Destroying Talos cluster '" +:+ clusterName +:+ "'..."));
    run cluster_destroy;
    run (say ("Talos cluster '" +:+ clusterName +:+ "' destroyed"))]).

Definition talosctl_kubeconfig : cmd :=
  Simple [W (Lit talosctl); W (Lit "kubeconfig"); W (Lit kubeconfigPath);
          W (Lit "--force"); W (Lit "--name"); W (Lit clusterName)].

Definition verify_kubeconfig : cmd :=
  Simple [W (Lit "kubectl"); W (Lit "--kubeconfig"); W (Lit kubeconfigPath);
          W (Lit "get"); W (Lit "nodes"); R OutNull; R ErrOut].

Definition show_nodes : cmd :=
  Simple [W (Lit "kubectl"); W (Lit "--kubeconfig"); W (Lit kubeconfigPath);
          W (Lit "get"); W (Lit "nodes")].

Definition exportKubeconfig_create : source :=
  Raw (block [
    run (echo [DLit "Exporting kubeconfig to "; DLit kubeconfigPath; DLit "..."]);
    blank;
    rem "Wait for cluster to be fully ready";
    run (call ["sleep"; "5"]);
    blank;
    rem "Get kubeconfig from Talos";
    run talosctl_kubeconfig;
    blank;
    rem "Verify kubeconfig works";
    run (IfElse verify_kubeconfig
      (block [
        run (say "Kubeconfig exported successfully");
        run show_nodes])
      (block [
        run (say "Warning: kubectl not able to connect yet, cluster may still be initializing")]))]).

Definition exportKubeconfig_delete : source :=
  OneLine (Simple [W (Lit "rm"); W (Lit "-f"); W (Lit kubeconfigPath)]).

Definition get_nodes : cmd :=
  Simple [W (Lit "kubectl"); W (Lit "get"); W (Lit "nodes");
          W (Lit "--no-headers"); R ErrNull].

Definition count_ready : cmd :=
  Capture "READY"
    (OrElse (Pipe get_nodes (Simple [W (Lit "grep"); W (Lit "-c"); W (DQ [DLit " Ready "])]))
            (say "0")).

Definition count_total : cmd :=
  Capture "TOTAL"
    (OrElse (Pipe (Pipe get_nodes (call ["wc"; "-l"]))
                  (Simple [W (Lit "tr"); W (Lit "-d"); W (SQ " ")]))
            (say "0")).

Definition all_ready : cmd :=
  AndAlso
    (Simple [W (Lit "["); W (DQ [DVar "READY"]); W (Lit "="); W (DQ [DVar "TOTAL"]); W (Lit "]")])
    (Simple [W (Lit "["); W (DQ [DVar "TOTAL"]); W (Lit "-gt"); W (Lit "0"); W (Lit "]")]).

Definition nodes_body : script :=
  block [
    run count_ready;
    run count_total;
    blank;
    run (If all_ready (block [
      run (echo [DLit "All "; DVar "TOTAL"; DLit " nodes are ready"]);
      run (call ["break"])]));
    blank;
    run (echo [DLit "Waiting for nodes... ("; DVar "READY"; DLit "/"; DVar "TOTAL"; DLit " ready)"]);
    run (call ["sleep"; "5"])].

Definition nodes_loop : cmd := For "i" (call ["seq"; "1"; "60"]) nodes_body.

Definition wait_pods : cmd :=
  OrElse (Simple [W (Lit "kubectl"); W (Lit "wait"); W (Lit "--for=condition=Ready");
                  W (Lit "pods"); W (Lit "--all"); W (Lit "-n"); W (Lit "kube-system");
                  W (Lit "--timeout=300s"); R ErrNull])
         (call ["true"]).

Definition nodes_wide : cmd := call ["kubectl"; "get"; "nodes"; "-o"; "wide"].

Definition waitForK8s_create : source :=
  Raw (block [
    run (Export "KUBECONFIG" (Lit kubeconfigPath));
    run (say "Waiting for Kubernetes nodes to be ready...");
    blank;
    rem "Wait for all nodes to be Ready";
    run nodes_loop;
    blank;
    rem "Wait for system pods";
    run (say "Waiting for system pods...");
    run wait_pods;
    blank;
    run (say "Kubernetes is ready");
    run nodes_wide]).

Definition label (ns l : string) : cmd :=
  call ["kubectl"; "label"; "namespace"; ns; l; "--overwrite"].

(** The manifest handed to [kubectl apply] on its standard input. *)
Definition netpol : string :=
"apiVersion: networking.k8s.io/v1
kind: NetworkPolicy
metadata:
  name: default-deny-all
  namespace: default
spec:
  podSelector: {}
  policyTypes:
  - Ingress
  - Egress
---
apiVersion: networking.k8s.io/v1
kind: NetworkPolicy
metadata:
  name: allow-dns
  namespace: default
spec:
  podSelector: {}
  policyTypes:
  - Egress
  egress:
  - to:
    - namespaceSelector:
        matchLabels:
          kubernetes.io/metadata.name: kube-system
    ports:
    - protocol: UDP
      port: 53
    - protocol: TCP
      port: 53
".

Definition apply_netpol : cmd :=
  Pipe (Simple [W (Lit "cat"); R (Here "NETPOL" netpol)])
       (call ["kubectl"; "apply"; "-f"; "-"]).

Definition applySecurityHardening_create : source :=
  Raw (block [
    run (Export "KUBECONFIG" (Lit kubeconfigPath));
    run (say "Applying security hardening...");
    blank;
    rem "Label namespaces with Pod Security Standards";
    run (label "kube-system" "pod-security.kubernetes.io/enforce=privileged");
    run (label "kube-system" "pod-security.kubernetes.io/warn=baseline");
    blank;
    run (label "default" "pod-security.kubernetes.io/enforce=restricted");
    run (label "default" "pod-security.kubernetes.io/warn=restricted");
    blank;
    rem "Create default deny NetworkPolicy for default namespace";
    run apply_netpol;
    blank;
    run (say "Security hardening applied:");
    run (say "- Pod Security Standards: privileged for kube-system, restricted for default");
    run (say "- Default NetworkPolicy: deny-all with DNS egress allowed")]).

Definition rule : string :=
  "=====================================================================".

Definition verifyCluster_create : source :=
  Raw (block [
    run (Export "KUBECONFIG" (Lit kubeconfigPath));
    blank;
    run (say rule);
    run (say "Talos Cluster Ready");
    run (say rule);
    run (say "");
    run (say ("Cluster: " +:+ clusterName));
    run (echo [DLit "Kubeconfig: "; DLit kubeconfigPath]);
    run (echo [DLit "Talosconfig: "; DLit talosConfigPath]);
    run (say "");
    run (say "Security Features (built into Talos):");
    run (say "  - Immutable OS (no shell, no SSH)");
    run (say "  - API-only management");
    run (say "  - Encryption at rest for etcd");
    run (say "  - Secure boot capable");
    run (say "  - Minimal attack surface");
    run (say "");
    run (say "Applied Hardening:");
    run (say "  - Pod Security Standards enforced");
    run (say "  - Default-deny NetworkPolicies");
    run (say "");
    run (say "Nodes:");
    run nodes_wide;
    run (say "");
    run (say "System Pods:");
    run (call ["kubectl"; "get"; "pods"; "-n"; "kube-system"]);
    run (say "");
    run (say rule);
    run (say "Usage:");
    run (echo [DLit "  export KUBECONFIG="; DLit kubeconfigPath]);
    run (say "  kubectl get nodes");
    run (echo [DLit "  talosctl --talosconfig "; DLit talosConfigPath; DLit " dashboard"]);
    run (say rule)]).

(** *** The program: the steps in the order [main] registers them *)

Definition steps : list Step := [
  {| resource := createTalosDir; create := createTalosDir_create; delete := None |};
  {| resource := createCluster; create := createCluster_create;
     delete := Some createCluster_delete |};
  {| resource := exportKubeconfig; create := exportKubeconfig_create;
     delete := Some exportKubeconfig_delete |};
  {| resource := waitForK8s; create := waitForK8s_create; delete := None |};
  {| resource := applySecurityHardening; create := applySecurityHardening_create;
     delete := None |};
  {| resource := verifyCluster; create := verifyCluster_create; delete := None |} ].

(** The values [main] exports. *)
Definition exports : list (string * string) := [
  ("clusterName", clusterName);
  ("kubeconfigPath", kubeconfigPath);
  ("talosconfigPath", talosConfigPath) ].

End Program.

Arguments talosDir : simpl never.
Arguments talosConfigPath : simpl never.
Arguments kubeconfigPath : simpl never.
Arguments nodes_body : simpl never.
Arguments nodes_loop : simpl never.

(** [main]: without a home directory nothing is registered. *)
Definition main (home : option string) : option (list Step) :=
  steps <$> home.

End Docker.
(** ** The second program: Talos on a Docker daemon inside a Lima VM *)

Module Lima.
Import Text Go Sh Pulumi.

Section Program.
Variable homeDir : string.

Definition clusterName : string := "talos-local".
Definition vmName : string := "talos-docker".

Definition talosDir : string := Join [homeDir; ".talos"].
Definition talosConfigPath : string := Join [talosDir; "config"].
Definition kubeconfigPath : string := Join [homeDir; ".kube"; "talos-config"].
Definition dockerSocket : string := Join [homeDir; ".lima"; vmName; "sock"; "docker.sock"].

Definition limaConfigPath : string := "./talos-docker.yaml".

Definition limaConfig : string :=
  q "# Lima VM for Talos Docker provisioner
images:
- location: `https://cloud-images.ubuntu.com/releases/24.04/release/ubuntu-24.04-server-cloudimg-arm64.img`
  arch: `aarch64`
- location: `https://cloud-images.ubuntu.com/releases/24.04/release/ubuntu-24.04-server-cloudimg-amd64.img`
  arch: `x86_64`

cpus: 4
memory: `8GiB`
disk: `100GiB`

containerd:
  system: false
  user: false

provision:
- mode: system
  script: |
    #!/bin/bash
    set -eux -o pipefail

    # Install Docker
    if ! command -v docker &> /dev/null; then
      curl -fsSL https://get.docker.com | sh
      systemctl enable docker
      systemctl start docker
      usermod -aG docker $LIMA_CIDATA_USER
    fi

portForwards:
- guestSocket: `/var/run/docker.sock`
  hostSocket: `{{.Dir}}/sock/docker.sock`
".

(** *** The script texts, as the Go source builds them *)

Definition createDirs_Create : string :=
  Sprintf (q "mkdir -p %s ~/.kube")
    [talosDir].

Definition createLimaConfig_Create : string :=
  Sprintf (q "cat <<'EOF' > %s
%s
EOF")
    [limaConfigPath; limaConfig].

Definition createLimaConfig_Delete : string :=
  Sprintf (q "rm -f %s")
    [limaConfigPath].

Definition limaVm_Create : string :=
  Sprintf (q "
				# Check if VM already exists
				if limactl list --format json | grep -q '`name`:`%s`'; then
					echo `VM %s already exists, checking status...`

					# Check if VM is running
					if limactl list --format json | grep -A 5 '`name`:`%s`' | grep -q '`status`:`Running`'; then
						echo `VM %s is already running`
					else
						echo `Starting existing VM %s...`
						limactl start %s
					fi
				else
					echo `Creating Lima VM %s...`
					limactl create --name=%s %s --tty=false
					limactl start %s
				fi

				# Wait for Docker to be ready
				echo `Waiting for Docker to be ready...`
				for i in $(seq 1 30); do
					if DOCKER_HOST=`unix://%s` docker info >/dev/null 2>&1; then
						echo `Docker is ready`
						DOCKER_HOST=`unix://%s` docker info | grep -E `Server Version|Operating System`
						break
					fi
					echo `Waiting for Docker... ($i/30)`
					sleep 5
				done
			")
    [vmName; vmName; vmName; vmName; vmName; vmName; vmName; vmName; limaConfigPath; vmName; dockerSocket; dockerSocket].

Definition limaVm_Delete : string :=
  Sprintf (q "
				echo `Stopping and deleting Lima VM %s...`
				limactl stop %s 2>/dev/null || true
				limactl delete %s --force 2>/dev/null || true
				echo `Lima VM %s deleted`
			")
    [vmName; vmName; vmName; vmName].

Definition createCluster_Create : string :=
  Sprintf (q "
				# Check if cluster already exists
				if /opt/homebrew/bin/talosctl cluster show --name %s >/dev/null 2>&1; then
					echo `Talos cluster '%s' already exists`
					exit 0
				fi

				echo `Creating Talos cluster '%s'...`

				# Create cluster with Docker provisioner
				# 1 control-plane + 2 workers
				/opt/homebrew/bin/talosctl cluster create \
					--name %s \
					--controlplanes 1 \
					--workers 2 \
					--wait \
					--wait-timeout 10m

				echo `Talos cluster '%s' created successfully`
			")
    [clusterName; clusterName; clusterName; clusterName; clusterName].

Definition createCluster_Delete : string :=
  Sprintf (q "
				echo `Destroying Talos cluster '%s'...`
				/opt/homebrew/bin/talosctl cluster destroy --name %s 2>/dev/null || true
				echo `Talos cluster '%s' destroyed`
			")
    [clusterName; clusterName; clusterName].

Definition exportKubeconfig_Create : string :=
  Sprintf (q "
				echo `Exporting kubeconfig to %s...`
				sleep 5

				# Get kubeconfig from Talos
				/opt/homebrew/bin/talosctl kubeconfig %s --force

				# Verify kubeconfig works
				if kubectl --kubeconfig %s get nodes >/dev/null 2>&1; then
					echo `Kubeconfig exported successfully`
					kubectl --kubeconfig %s get nodes
				else
					echo `Warning: kubectl not able to connect yet, cluster may still be initializing`
				fi
			")
    [kubeconfigPath; kubeconfigPath; kubeconfigPath; kubeconfigPath].

Definition exportKubeconfig_Delete : string :=
  Sprintf (q "rm -f %s")
    [kubeconfigPath].

Definition waitForK8s_Create : string :=
  Sprintf (q "
				export KUBECONFIG=%s
				echo `Waiting for Kubernetes nodes to be ready...`

				for i in $(seq 1 60); do
					READY=$(kubectl get nodes --no-headers 2>/dev/null | grep -c ` Ready ` || echo `0`)
					TOTAL=$(kubectl get nodes --no-headers 2>/dev/null | wc -l | tr -d ' ' || echo `0`)

					if [ `$READY` = `$TOTAL` ] && [ `$TOTAL` -gt 0 ]; then
						echo `All $TOTAL nodes are ready`
						break
					fi

					echo `Waiting for nodes... ($READY/$TOTAL ready)`
					sleep 5
				done

				echo `Waiting for system pods...`
				kubectl wait --for=condition=Ready pods --all -n kube-system --timeout=300s 2>/dev/null || true

				echo `Kubernetes is ready`
				kubectl get nodes -o wide
			")
    [kubeconfigPath].

Definition applySecurityHardening_Create : string :=
  Sprintf (q "
				export KUBECONFIG=%s
				echo `Applying security hardening...`

				# Label namespaces with Pod Security Standards
				kubectl label namespace kube-system pod-security.kubernetes.io/enforce=privileged --overwrite
				kubectl label namespace kube-system pod-security.kubernetes.io/warn=baseline --overwrite

				kubectl label namespace default pod-security.kubernetes.io/enforce=restricted --overwrite
				kubectl label namespace default pod-security.kubernetes.io/warn=restricted --overwrite

				# Create default deny NetworkPolicy
				cat <<'NETPOL' | kubectl apply -f -
apiVersion: networking.k8s.io/v1
kind: NetworkPolicy
metadata:
  name: default-deny-all
  namespace: default
spec:
  podSelector: {}
  policyTypes:
  - Ingress
  - Egress
---
apiVersion: networking.k8s.io/v1
kind: NetworkPolicy
metadata:
  name: allow-dns
  namespace: default
spec:
  podSelector: {}
  policyTypes:
  - Egress
  egress:
  - to:
    - namespaceSelector:
        matchLabels:
          kubernetes.io/metadata.name: kube-system
    ports:
    - protocol: UDP
      port: 53
    - protocol: TCP
      port: 53
NETPOL

				echo `Security hardening applied`
			")
    [kubeconfigPath].

Definition verifyCluster_Create : string :=
  Sprintf (q "
				export KUBECONFIG=%s

				echo `=====================================================================`
				echo `Talos Cluster Ready`
				echo `=====================================================================`
				echo ``
				echo `Cluster: %s`
				echo `Lima VM: %s`
				echo `Kubeconfig: %s`
				echo `Talosconfig: %s`
				echo ``
				echo `Security Features (built into Talos):`
				echo `  - Immutable OS (no shell, no SSH)`
				echo `  - API-only management`
				echo `  - Encryption at rest for etcd`
				echo `  - Secure boot capable`
				echo `  - Minimal attack surface`
				echo ``
				echo `Applied Hardening:`
				echo `  - Pod Security Standards enforced`
				echo `  - Default-deny NetworkPolicies`
				echo ``
				echo `Nodes:`
				kubectl get nodes -o wide
				echo ``
				echo `=====================================================================`
				echo `Usage:`
				echo `  export KUBECONFIG=%s`
				echo `  kubectl get nodes`
				echo `  talosctl dashboard`
				echo `=====================================================================`
			")
    [kubeconfigPath; clusterName; vmName; kubeconfigPath; talosConfigPath; kubeconfigPath].

(** *** The resources *)

Definition createDirs : Resource := {|
  name := "create-dirs";
  args := {| Create := createDirs_Create; Delete := None; Environment := ∅ |};
  DependsOn := [];
|}.

Definition createLimaConfig : Resource := {|
  name := "create-lima-config";
  args := {| Create := createLimaConfig_Create;
             Delete := Some createLimaConfig_Delete;
             Environment := ∅ |};
  DependsOn := [];
|}.

Definition limaVm : Resource := {|
  name := "lima-vm";
  args := {| Create := limaVm_Create; Delete := Some limaVm_Delete; Environment := ∅ |};
  DependsOn := [name createDirs; name createLimaConfig];
|}.

Definition toolEnvironment : gmap string string :=
  {[ "TALOSCONFIG" := talosConfigPath;
     "DOCKER_HOST" := Sprintf "unix://%s" [dockerSocket] ]}.

Definition createCluster : Resource := {|
  name := "create-talos-cluster";
  args := {| Create := createCluster_Create;
             Delete := Some createCluster_Delete;
             Environment := toolEnvironment |};
  DependsOn := [name limaVm];
|}.

Definition exportKubeconfig : Resource := {|
  name := "export-kubeconfig";
  args := {| Create := exportKubeconfig_Create;
             Delete := Some exportKubeconfig_Delete;
             Environment := toolEnvironment |};
  DependsOn := [name createCluster];
|}.

Definition waitForK8s : Resource := {|
  name := "wait-for-kubernetes";
  args := {| Create := waitForK8s_Create; Delete := None;
             Environment := {[ "KUBECONFIG" := kubeconfigPath ]} |};
  DependsOn := [name exportKubeconfig];
|}.

Definition applySecurityHardening : Resource := {|
  name := "apply-security-hardening";
  args := {| Create := applySecurityHardening_Create; Delete := None;
             Environment := {[ "KUBECONFIG" := kubeconfigPath ]} |};
  DependsOn := [name waitForK8s];
|}.

Definition verifyCluster : Resource := {|
  name := "verify-cluster";
  args := {| Create := verifyCluster_Create; Delete := None;
             Environment := {[ "KUBECONFIG" := kubeconfigPath ]} |};
  DependsOn := [name applySecurityHardening];
|}.

(** *** The scripts as shell

    The Go program writes the paths into the scripts as they are, mostly
    without quotes ([mkdir -p %s], [export KUBECONFIG=%s], [rm -f %s]).
    The syntax below reads such a path as one word, [Lit path]: this is
    how the shell reads the text when the home directory is [plain].  With
    another home directory the shell may split the path at a blank or
    expand parts of it, and what [export] does with the pieces depends on
    the shell.  The properties that rest on this reading are stated for a
    plain home directory. *)

Definition talosctl : string := "/opt/homebrew/bin/talosctl".

Definition createDirs_create : source :=
  OneLine (Simple [W (Lit "mkdir"); W (Lit "-p"); W (Lit talosDir); W (Lit "~/.kube")]).

Definition createLimaConfig_create : source :=
  OneLine (Simple [W (Lit "cat"); R (Here "EOF" (limaConfig +:+ nl));
                   R (OutFile (Lit limaConfigPath))]).

Definition createLimaConfig_delete : source :=
  OneLine (Simple [W (Lit "rm"); W (Lit "-f"); W (Lit limaConfigPath)]).

Definition limactl_list : cmd := call ["limactl"; "list"; "--format"; "json"].

Definition name_entry : string := dq +:+ "name" +:+ dq +:+ ":" +:+ dq +:+ vmName +:+ dq.
Definition running_entry : string := dq +:+ "status" +:+ dq +:+ ":" +:+ dq +:+ "Running" +:+ dq.

Definition vm_exists : cmd :=
  Pipe limactl_list (Simple [W (Lit "grep"); W (Lit "-q"); W (SQ name_entry)]).

Definition vm_running : cmd :=
  Pipe (Pipe limactl_list
             (Simple [W (Lit "grep"); W (Lit "-A"); W (Lit "5"); W (SQ name_entry)]))
       (Simple [W (Lit "grep"); W (Lit "-q"); W (SQ running_entry)]).

Definition docker_host : item :=
  Assign "DOCKER_HOST" (DQ [DLit "unix://"; DLit dockerSocket]).

Definition docker_probe : cmd :=
  Simple [docker_host; W (Lit "docker"); W (Lit "info"); R OutNull; R ErrOut].

Definition docker_version : cmd :=
  Pipe (Simple [docker_host; W (Lit "docker"); W (Lit "info")])
       (Simple [W (Lit "grep"); W (Lit "-E"); W (DQ [DLit "Server Version|Operating System"])]).

Definition docker_body : script :=
  block [
    run (If docker_probe (block [
      run (say "Docker is ready");
      run docker_version;
      run (call ["break"])]));
    run (echo [DLit "Waiting for Docker... ("; DVar "i"; DLit "/30)"]);
    run (call ["sleep"; "5"])].

Definition docker_loop : cmd := For "i" (call ["seq"; "1"; "30"]) docker_body.

Definition limaVm_create : source :=
  Raw (block [
    rem "Check if VM already exists";
    run (IfElse vm_exists
      (block [
        run (say ("VM " +:+ vmName +:+ " already exists, checking status..."));
        blank;
        rem "Check if VM is running";
        run (IfElse vm_running
          (block [
            run (say ("VM " +:+ vmName +:+ " is already running"))])
          (block [
            run (say ("Starting existing VM " +:+ vmName +:+ "..."));
            run (call ["limactl"; "start"; vmName])]))])
      (block [
        run (say ("Creating Lima VM " +:+ vmName +:+ "..."));
        run (call ["limactl"; "create"; "--name=" +:+ vmName; limaConfigPath; "--tty=false"]);
        run (call ["limactl"; "start"; vmName])]));
    blank;
    rem "Wait for Docker to be ready";
    run (say "Waiting for Docker to be ready...");
    run docker_loop]).

Definition limaVm_delete : source :=
  Raw (block [
    run (say ("Stopping and deleting Lima VM " +:+ vmName +:+ "..."));
    run (OrElse (Simple [W (Lit "limactl"); W (Lit "stop"); W (Lit vmName); R ErrNull])
                (call ["true"]));
    run (OrElse (Simple [W (Lit "limactl"); W (Lit "delete"); W (Lit vmName);
                         W (Lit "--force"); R ErrNull])
                (call ["true"]));
    run (say ("Lima VM " +:+ vmName +:+ " deleted"))]).

Definition cluster_show : cmd :=
  Simple [W (Lit talosctl); W (Lit "cluster"); W (Lit "show");
          W (Lit "--name"); W (Lit clusterName); R OutNull; R ErrOut].

Definition cluster_create : cmd :=
  Simple [W (Lit talosctl); W (Lit "cluster"); W (Lit "create"); Cont;
          W (Lit "--name"); W (Lit clusterName); Cont;
          W (Lit "--controlplanes"); W (Lit "1"); Cont;
          W (Lit "--workers"); W (Lit "2"); Cont;
          W (Lit "--wait"); Cont;
          W (Lit "--wait-timeout"); W (Lit "10m")].

Definition createCluster_create : source :=
  Raw (block [
    rem "Check if cluster already exists";
    run (If cluster_show (block [
      run (say ("Talos cluster '" +:+ clusterName +:+ "' already exists"));
      run (call ["exit"; "0"])]));
    blank;
    run (say ("Creating Talos cluster '" +:+ clusterName +:+ "'..."));
    blank;
    rem "Create cluster with Docker provisioner";
    rem "1 control-plane + 2 workers";
    run cluster_create;
    blank;
    run (say ("Talos cluster '" +:+ clusterName +:+ "' created successfully"))]).

Definition cluster_destroy : cmd :=
  OrElse (Simple [W (Lit talosctl); W (Lit "cluster"); W (Lit "destroy");
                  W (Lit "--name"); W (Lit clusterName); R ErrNull])
         (call ["true"]).

Definition createCluster_delete : source :=
  Raw (block [
    run (say ("Destroying Talos cluster '" +:+ clusterName +:+ "'..."));
    run cluster_destroy;
    run (say ("Talos cluster '" +:+ clusterName +:+ "' destroyed"))]).

Definition talosctl_kubeconfig : cmd :=
  Simple [W (Lit talosctl); W (Lit "kubeconfig"); W (Lit kubeconfigPath); W (Lit "--force")].

Definition verify_kubeconfig : cmd :=
  Simple [W (Lit "kubectl"); W (Lit "--kubeconfig"); W (Lit kubeconfigPath);
          W (Lit "get"); W (Lit "nodes"); R OutNull; R ErrOut].

Definition show_nodes : cmd :=
  Simple [W (Lit "kubectl"); W (Lit "--kubeconfig"); W (Lit kubeconfigPath);
          W (Lit "get"); W (Lit "nodes")].

Definition exportKubeconfig_create : source :=
  Raw (block [
    run (echo [DLit "Exporting kubeconfig to "; DLit kubeconfigPath; DLit "..."]);
    run (call ["sleep"; "5"]);
    blank;
    rem "Get kubeconfig from Talos";
    run talosctl_kubeconfig;
    blank;
    rem "Verify kubeconfig works";
    run (IfElse verify_kubeconfig
      (block [
        run (say "Kubeconfig exported successfully");
        run show_nodes])
      (block [
        run (say "Warning: kubectl not able to connect yet, cluster may still be initializing")]))]).

Definition exportKubeconfig_delete : source :=
  OneLine (Simple [W (Lit "rm"); W (Lit "-f"); W (Lit kubeconfigPath)]).

Definition get_nodes : cmd :=
  Simple [W (Lit "kubectl"); W (Lit "get"); W (Lit "nodes");
          W (Lit "--no-headers"); R ErrNull].

Definition count_ready : cmd :=
  Capture "READY"
    (OrElse (Pipe get_nodes (Simple [W (Lit "grep"); W (Lit "-c"); W (DQ [DLit " Ready "])]))
            (say "0")).

Definition count_total : cmd :=
  Capture "TOTAL"
    (OrElse (Pipe (Pipe get_nodes (call ["wc"; "-l"]))
                  (Simple [W (Lit "tr"); W (Lit "-d"); W (SQ " ")]))
            (say "0")).

Definition all_ready : cmd :=
  AndAlso
    (Simple [W (Lit "["); W (DQ [DVar "READY"]); W (Lit "="); W (DQ [DVar "TOTAL"]); W (Lit "]")])
    (Simple [W (Lit "["); W (DQ [DVar "TOTAL"]); W (Lit "-gt"); W (Lit "0"); W (Lit "]")]).

Definition nodes_body : script :=
  block [
    run count_ready;
    run count_total;
    blank;
    run (If all_ready (block [
      run (echo [DLit "All "; DVar "TOTAL"; DLit " nodes are ready"]);
      run (call ["break"])]));
    blank;
    run (echo [DLit "Waiting for nodes... ("; DVar "READY"; DLit "/"; DVar "TOTAL"; DLit " ready)"]);
    run (call ["sleep"; "5"])].

Definition nodes_loop : cmd := For "i" (call ["seq"; "1"; "60"]) nodes_body.

Definition wait_pods : cmd :=
  OrElse (Simple [W (Lit "kubectl"); W (Lit "wait"); W (Lit "--for=condition=Ready");
                  W (Lit "pods"); W (Lit "--all"); W (Lit "-n"); W (Lit "kube-system");
                  W (Lit "--timeout=300s"); R ErrNull])
         (call ["true"]).

Definition nodes_wide : cmd := call ["kubectl"; "get"; "nodes"; "-o"; "wide"].

Definition waitForK8s_create : source :=
  Raw (block [
    run (Export "KUBECONFIG" (Lit kubeconfigPath));
    run (say "Waiting for Kubernetes nodes to be ready...");
    blank;
    run nodes_loop;
    blank;
    run (say "Waiting for system pods...");
    run wait_pods;
    blank;
    run (say "Kubernetes is ready");
    run nodes_wide]).

Definition label (ns l : string) : cmd :=
  call ["kubectl"; "label"; "namespace"; ns; l; "--overwrite"].

(** The manifest handed to [kubectl apply] on its standard input. *)
Definition netpol : string :=
"apiVersion: networking.k8s.io/v1
kind: NetworkPolicy
metadata:
  name: default-deny-all
  namespace: default
spec:
  podSelector: {}
  policyTypes:
  - Ingress
  - Egress
---
apiVersion: networking.k8s.io/v1
kind: NetworkPolicy
metadata:
  name: allow-dns
  namespace: default
spec:
  podSelector: {}
  policyTypes:
  - Egress
  egress:
  - to:
    - namespaceSelector:
        matchLabels:
          kubernetes.io/metadata.name: kube-system
    ports:
    - protocol: UDP
      port: 53
    - protocol: TCP
      port: 53
".

Definition apply_netpol : cmd :=
  Pipe (Simple [W (Lit "cat"); R (Here "NETPOL" netpol)])
       (call ["kubectl"; "apply"; "-f"; "-"]).

Definition applySecurityHardening_create : source :=
  Raw (block [
    run (Export "KUBECONFIG" (Lit kubeconfigPath));
    run (say "Applying security hardening...");
    blank;
    rem "Label namespaces with Pod Security Standards";
    run (label "kube-system" "pod-security.kubernetes.io/enforce=privileged");
    run (label "kube-system" "pod-security.kubernetes.io/warn=baseline");
    blank;
    run (label "default" "pod-security.kubernetes.io/enforce=restricted");
    run (label "default" "pod-security.kubernetes.io/warn=restricted");
    blank;
    rem "Create default deny NetworkPolicy";
    run apply_netpol;
    blank;
    run (say "Security hardening applied")]).

Definition rule : string :=
  "=====================================================================".

Definition verifyCluster_create : source :=
  Raw (block [
    run (Export "KUBECONFIG" (Lit kubeconfigPath));
    blank;
    run (say rule);
    run (say "Talos Cluster Ready");
    run (say rule);
    run (say "");
    run (say ("Cluster: " +:+ clusterName));
    run (say ("Lima VM: " +:+ vmName));
    run (echo [DLit "Kubeconfig: "; DLit kubeconfigPath]);
    run (echo [DLit "Talosconfig: "; DLit talosConfigPath]);
    run (say "");
    run (say "Security Features (built into Talos):");
    run (say "  - Immutable OS (no shell, no SSH)");
    run (say "  - API-only management");
    run (say "  - Encryption at rest for etcd");
    run (say "  - Secure boot capable");
    run (say "  - Minimal attack surface");
    run (say "");
    run (say "Applied Hardening:");
    run (say "  - Pod Security Standards enforced");
    run (say "  - Default-deny NetworkPolicies");
    run (say "");
    run (say "Nodes:");
    run nodes_wide;
    run (say "");
    run (say rule);
    run (say "Usage:");
    run (echo [DLit "  export KUBECONFIG="; DLit kubeconfigPath]);
    run (say "  kubectl get nodes");
    run (say "  talosctl dashboard");
    run (say rule)]).

(** *** The program: the steps in the order [main] registers them *)

Definition steps : list Step := [
  {| resource := createDirs; create := createDirs_create; delete := None |};
  {| resource := createLimaConfig; create := createLimaConfig_create;
     delete := Some createLimaConfig_delete |};
  {| resource := limaVm; create := limaVm_create; delete := Some limaVm_delete |};
  {| resource := createCluster; create := createCluster_create;
     delete := Some createCluster_delete |};
  {| resource := exportKubeconfig; create := exportKubeconfig_create;
     delete := Some exportKubeconfig_delete |};
  {| resource := waitForK8s; create := waitForK8s_create; delete := None |};
  {| resource := applySecurityHardening; create := applySecurityHardening_create;
     delete := None |};
  {| resource := verifyCluster; create := verifyCluster_create; delete := None |} ].

(** The values [main] exports. *)
Definition exports : list (string * string) := [
  ("clusterName", clusterName);
  ("vmName", vmName);
  ("kubeconfigPath", kubeconfigPath);
  ("talosconfigPath", talosConfigPath);
  ("dockerSocket", dockerSocket) ].

End Program.

Arguments talosDir : simpl never.
Arguments talosConfigPath : simpl never.
Arguments kubeconfigPath : simpl never.
Arguments nodes_body : simpl never.
Arguments nodes_loop : simpl never.
Arguments docker_loop : simpl never.
Arguments docker_body : simpl never.
Arguments dockerSocket : simpl never.

(** [main]: without a home directory nothing is registered. *)
Definition main (home : option string) : option (list Step) :=
  steps <$> home.

End Lima.
(** ** Running a script

    The interpreter is a total function.  What lies outside the script is
    a [Host]: the external programs, the file system behind [> path], and
    the width [wc] pads its count to.  A run yields the final exit status
    and the list of [event]s the script caused, in order. *)

Module Exec.
Import Text Sh.

(** A process to start: argument vector (the command name first), the
    environment it gets and what it reads on standard input. *)
Record proc := {
  argv : list string;
  penv : gmap string string;
  stdin : string;
}.

Record Host (World : Type) := {
  (** run an external program to completion: new state of the world, exit
      status, standard output *)
  spawn : World → proc → World * nat * string;
  (** create or truncate a file and write to it; [false] when that fails *)
  write : World → string → string → World * bool;
  (** spaces [wc -l] prints before a count (none with GNU, some with BSD) *)
  wc_pad : nat → nat;
}.
Arguments spawn {World} _ _ _.
Arguments write {World} _ _ _ _.
Arguments wc_pad {World} _ _.

Inductive event :=
  | Spawn (p : proc) (code : nat)     (* an external program ran and exited *)
  | Out (s : string)                 (* written to the script's standard output *)
  | Sleep (secs : nat)               (* [sleep secs] *)
  | Wrote (path content : string) (ok : bool)
  | Iter (x v : string).             (* a loop body starts with x = v *)

(** How a command ends: normally, by [break], or by [exit]. *)
Inductive signal := Go | Break | Exit.

Record shell (World : Type) := {
  world : World;
  env : gmap string string;          (* exported variables *)
  vars : list (string * string);     (* shell variables, newest first *)
  status : nat;                      (* $? *)
}.
Arguments world {World} _.
Arguments env {World} _.
Arguments vars {World} _.
Arguments status {World} _.

(** *** The standard utilities the scripts call *)

Fixpoint split_on (c : ascii) (cur : string → string) (s : string) : list string :=
  match s with
  | "" => [cur ""]
  | String a rest =>
      if Ascii.eqb a c then cur "" :: split_on c (λ k, k) rest
      else split_on c (λ k, cur (String a k)) rest
  end.

(** A pattern without regular-expression operators matches as a fixed
    string; [bar] tells whether [|] is an operator ([grep -E]). *)
Fixpoint literal (bar : bool) (pat : string) : bool :=
  match pat with
  | "" => true
  | String c rest =>
      if contains (String c "") ".*[]^$\" then false
      else if bar && contains (String c "") "+?(){}" then false
      else literal bar rest
  end.

Definition hit (alts : list string) (l : string) : bool :=
  existsb (λ p, contains p l) alts.

(** [grep -A k]: the matching lines, each followed by up to [k] lines of
    context, groups that do not touch separated by [--]. *)
Fixpoint grep_after (k : nat) (pat : string) (left : nat) (gap shown : bool)
    (ls : list string) : list string :=
  match ls with
  | [] => []
  | l :: rest =>
      if contains pat l then
        (if gap && shown then ["--"] else []) ++ l :: grep_after k pat k false true rest
      else
        match left with
        | S left' => l :: grep_after k pat left' false shown rest
        | 0 => grep_after k pat 0 true shown rest
        end
  end.

Definition found (n : nat) : nat := if n =? 0 then 1 else 0.

Definition grep (args : list string) (input : string) : option (nat * list string) :=
  match args with
  | ["-q"; pat] =>
      if literal false pat
      then Some (if existsb (hit [pat]) (lines input) then 0 else 1, [])
      else None
  | ["-c"; pat] =>
      if literal false pat
      then let n := length (filter (λ l, hit [pat] l = true) (lines input)) in
           Some (found n, [itoa n +:+ nl])
      else None
  | ["-E"; pat] =>
      if literal true pat
      then let ls := filter (λ l, hit (split_on "|" (λ k, k) pat) l = true) (lines input) in
           Some (found (length ls), [unlines ls])
      else None
  | ["-A"; k; pat] =>
      match atoi k with
      | Some k =>
          if literal false pat
          then Some (if existsb (hit [pat]) (lines input) then 0 else 1,
                     [unlines (grep_after k pat 0 false false (lines input))])
          else None
      | None => None
      end
  | _ => None
  end.

Definition wc_l (pad : nat → nat) (input : string) : string :=
  let n := newlines input in spaces (pad n) +:+ itoa n +:+ nl.

Definition seq_out (lo hi : nat) : string :=
  unlines (itoa <$> seq lo (S hi - lo)).

(** [[ a = b ]] and [[ a -gt b ]]; status 2 when an operand of [-gt] is
    not a number. *)
Definition test (args : list string) : option (nat * list string) :=
  match args with
  | [a; "="; b; "]"] => Some (if String.eqb a b then 0 else 1, [])
  | [a; "-gt"; b; "]"] =>
      match atoi a, atoi b with
      | Some x, Some y => Some (if y <? x then 0 else 1, [])
      | _, _ => Some (2, [])
      end
  | _ => None
  end.

(** Exit status of a utility and what it writes to standard output,
    [None] for a program (or a use of a utility) that is not one of the
    cases above: that one is the host's to run. *)
Definition utility (pad : nat → nat) (name : string) (args : list string)
    (input : string) : option (nat * list string) :=
  if String.eqb name "echo" then Some (0, [unwords args +:+ nl])
  else if String.eqb name "true" then Some (0, [])
  else if String.eqb name "[" then test args
  else if String.eqb name "grep" then grep args input
  else if String.eqb name "cat" then
    match args with [] => Some (0, [input]) | _ => None end
  else if String.eqb name "wc" then
    match args with ["-l"] => Some (0, [wc_l pad input]) | _ => None end
  else if String.eqb name "tr" then
    match args with ["-d"; set] => Some (0, [delete_chars set input]) | _ => None end
  else if String.eqb name "seq" then
    match args with
    | [lo; hi] =>
        match atoi lo, atoi hi with
        | Some lo, Some hi => Some (0, [seq_out lo hi])
        | _, _ => None
        end
    | _ => None
    end
  else None.

(** *** Events *)

Definition is_out (e : event) : bool :=
  match e with Out _ => true | _ => false end.

(** What a list of events wrote to standard output. *)
Fixpoint stdout (evs : list event) : string :=
  match evs with
  | [] => ""
  | Out s :: rest => s +:+ stdout rest
  | _ :: rest => stdout rest
  end.

(** The events that remain when standard output is taken away (into a
    pipe or a command substitution). *)
Fixpoint silent (evs : list event) : list event :=
  match evs with
  | [] => []
  | Out _ :: rest => silent rest
  | e :: rest => e :: silent rest
  end.

(** *** The interpreter *)

Section Interp.
Context {World : Type} (H : Host World).

Definition result : Type := signal * shell World * list event.

Definition set_world (w : World) (st : shell World) : shell World :=
  {| world := w; env := env st; vars := vars st; status := status st |}.
Definition set_status (n : nat) (st : shell World) : shell World :=
  {| world := world st; env := env st; vars := vars st; status := n |}.
Definition set_var (x v : string) (st : shell World) : shell World :=
  {| world := world st; env := env st; vars := (x, v) :: vars st; status := status st |}.
Definition set_env (x v : string) (st : shell World) : shell World :=
  {| world := world st; env := <[x:=v]> (env st); vars := vars st; status := status st |}.

Fixpoint assoc (x : string) (l : list (string * string)) : option string :=
  match l with
  | [] => None
  | (y, v) :: rest => if String.eqb x y then Some v else assoc x rest
  end.

Definition get_var (st : shell World) (x : string) : string :=
  match assoc x (vars st) with
  | Some v => v
  | None => default "" (env st !! x)
  end.

Definition expand_part (st : shell World) (p : dpart) : string :=
  match p with
  | DLit s => s
  | DVar x => get_var st x
  end.

Definition expand (st : shell World) (w : word) : string :=
  match w with
  | Lit s | SQ s => s
  | DQ ps => String.concat "" (expand_part st <$> ps)
  end.

Fixpoint words_of (st : shell World) (its : list item) : list string :=
  match its with
  | [] => []
  | W w :: rest => expand st w :: words_of st rest
  | _ :: rest => words_of st rest
  end.

(** The environment of the process: the exported variables and the
    assignments written before the command name. *)
Fixpoint env_of (st : shell World) (its : list item) : gmap string string :=
  match its with
  | [] => env st
  | Assign x w :: rest => <[x:=expand st w]> (env_of st rest)
  | _ :: rest => env_of st rest
  end.

Fixpoint here_of (its : list item) : option string :=
  match its with
  | [] => None
  | R (Here _ content) :: _ => Some content
  | _ :: rest => here_of rest
  end.

Fixpoint to_null (its : list item) : bool :=
  match its with
  | [] => false
  | R OutNull :: _ => true
  | _ :: rest => to_null rest
  end.

Fixpoint to_file (st : shell World) (its : list item) : option string :=
  match its with
  | [] => None
  | R (OutFile p) :: _ => Some (expand st p)
  | _ :: rest => to_file st rest
  end.

(** Where the standard output of a finished command goes.  Standard error
    is not modelled: [2>&1] and [2>/dev/null] change nothing here (the
    scripts write [2>&1] only next to [>/dev/null]).  A file is written
    when the command has finished; the scripts redirect into a file only
    from [cat]. *)
Definition deliver (its : list item) (st : shell World) (w : World) (code : nat)
    (out : list string) (evs : list event) : result :=
  if to_null its then (Go, set_status code (set_world w st), evs)
  else
    match to_file st its with
    | Some path =>
        let content := String.concat "" out in
        let ok := (write H w path content).2 in
        (Go, set_status (if ok then code else 1)
               (set_world (write H w path content).1 st),
         evs ++ [Wrote path content ok])
    | None => (Go, set_status code (set_world w st), evs ++ (Out <$> out))
    end.

(** The three components of a host's answer. *)
Definition after (w : World) (p : proc) : World := (spawn H w p).1.1.
Definition exit_of (w : World) (p : proc) : nat := (spawn H w p).1.2.
Definition output_of (w : World) (p : proc) : string := (spawn H w p).2.

Definition external (its : list item) (input : string) (st : shell World) : result :=
  let p := {| argv := words_of st its; penv := env_of st its; stdin := input |} in
  let w := world st in
  deliver its st (after w p) (exit_of w p) [output_of w p] [Spawn p (exit_of w p)].

Definition simple (its : list item) (input : string) (st : shell World) : result :=
  let input := default input (here_of its) in
  match words_of st its with
  | [] => (Go, set_status 0 st, [])
  | name :: args =>
      if String.eqb name "exit" then
        match args with
        | [] => (Exit, st, [])
        | n :: _ => (Exit, set_status (default 2 (atoi n)) st, [])
        end
      else if String.eqb name "break" then (Break, set_status 0 st, [])
      else if String.eqb name "sleep" then
        match atoi <$> args with
        | [Some secs] => (Go, set_status 0 st, [Sleep secs])
        | _ => external its input st
        end
      else
        match utility (wc_pad H) name args input with
        | Some (code, out) => deliver its st (world st) code out []
        | None => external its input st
        end
  end.

(** Sequencing: the second part runs only if the first ended normally. *)
Definition and_then (r : result) (k : shell World → result) : result :=
  let '(sig, st, evs) := r in
  match sig with
  | Go => let '(sig', st', evs') := k st in (sig', st', evs ++ evs')
  | _ => r
  end.

(** A part that runs in a subshell: it hands back the world and its exit
    status, nothing else of its state, and no signal. *)
Definition sub (st : shell World) (r : result) : shell World * list event :=
  let '(_, st', evs) := r in
  (set_status (status st') (set_world (world st') st), evs).

(** The loop over the fields of a command substitution. *)
Fixpoint for_each (body : shell World → result) (x : string) (vs : list string)
    (st : shell World) : result :=
  match vs with
  | [] => (Go, st, [])
  | v :: rest =>
      let '(sig, st', evs) := body (set_var x v st) in
      match sig with
      | Go =>
          let '(sig', st'', evs') := for_each body x rest st' in
          (sig', st'', Iter x v :: evs ++ evs')
      | Break => (Go, set_status 0 st', Iter x v :: evs)
      | Exit => (Exit, st', Iter x v :: evs)
      end
  end.

Fixpoint exec (c : cmd) (input : string) (st : shell World) : result :=
  match c with
  | Simple its => simple its input st
  | Export x w => (Go, set_status 0 (set_env x (expand st w) st), [])
  | Pipe l r =>
      let '(st1, evs1) := sub st (exec l input st) in
      let '(st2, evs2) := sub st1 (exec r (stdout evs1) st1) in
      (Go, st2, silent evs1 ++ evs2)
  | OrElse l r =>
      and_then (exec l input st)
        (λ st1, if status st1 =? 0 then (Go, st1, []) else exec r input st1)
  | AndAlso l r =>
      and_then (exec l input st)
        (λ st1, if status st1 =? 0 then exec r input st1 else (Go, st1, []))
  | Capture x c =>
      let '(st1, evs1) := sub st (exec c input st) in
      (Go, set_var x (chomp (stdout evs1)) st1, silent evs1)
  | If c t =>
      and_then (exec c input st)
        (λ st1, if status st1 =? 0 then exec_script t input st1
                else (Go, set_status 0 st1, []))
  | IfElse c t e =>
      and_then (exec c input st)
        (λ st1, if status st1 =? 0 then exec_script t input st1
                else exec_script e input st1)
  | For x gen body =>
      let '(st1, evs1) := sub st (exec gen input st) in
      let '(sig, st2, evs2) :=
        for_each (exec_script body input) x (fields (chomp (stdout evs1)))
          (set_status 0 st1) in
      (sig, st2, silent evs1 ++ evs2)
  end
with exec_script (s : script) (input : string) (st : shell World) : result :=
  match s with
  | Done => (Go, st, [])
  | Blank rest | Comment _ rest => exec_script rest input st
  | Run c rest => and_then (exec c input st) (exec_script rest input)
  end.

(** [/bin/sh -c text]: a fresh shell with the given environment.  The
    exit status is that of the last command run; nothing stops the script
    at a failing command. *)
Definition run (src : source) (environment : gmap string string) (w : World)
    : World * nat * list event :=
  let st0 := {| world := w; env := environment; vars := []; status := 0 |} in
  let '(_, st, evs) :=
    match src with
    | Raw s => exec_script s "" st0
    | OneLine c => exec c "" st0
    end in
  (world st, status st, evs).

End Interp.

Arguments after : simpl never.
Arguments exit_of : simpl never.
Arguments output_of : simpl never.
Arguments hit : simpl never.
Arguments run : simpl never.
Arguments seq_out : simpl never.
Arguments set_world {World} w st /.
Arguments set_status {World} n st /.
Arguments set_var {World} x v st /.
Arguments set_env {World} x v st /.

(** The exit status and the events of a run. *)
Definition code {World : Type} (r : World * nat * list event) : nat := r.1.2.
Definition trace {World : Type} (r : World * nat * list event) : list event := r.2.

End Exec.
(** ** The step executor *)

Module Engine.
Import Pulumi Exec.

Inductive outcome :=
  | Created                (* the create action ran and exited with status 0 *)
  | Failed (code : nat)    (* the create action ran and exited with [code] *)
  | Skipped.               (* the create action did not run *)

Record report := {
  step : string;
  result : outcome;
  events : list event;
}.

Definition ran (r : report) : bool :=
  match result r with Skipped => false | _ => true end.

Definition succeeded (r : report) : bool :=
  match result r with Created => true | _ => false end.

Section Up.
Context {World : Type} (H : Host World).

(** The report of a step whose create action did not run. *)
Definition skipped (s : Step) : report :=
  {| step := name (resource s); result := Skipped; events := [] |}.

(** Modelled from the spec: the step executor is the Pulumi engine with
    the command provider, which is not part of the repository.  Following
    sections 4.1, 5 and 7, the steps are taken one after the other in the
    order the program registers them; the create action of a step is
    executed (by [/bin/sh -c], with the step's environment) only after all
    the steps it depends on have succeeded; a non-zero exit status fails
    the step and aborts the run: no create action is executed after it.
    [ok] holds the names of the steps that have succeeded so far. *)
Fixpoint up (steps : list Step) (ok : list string) (w : World)
    : World * list report :=
  match steps with
  | [] => (w, [])
  | s :: rest =>
      let r := resource s in
      if forallb (λ d, existsb (String.eqb d) ok) (DependsOn r) then
        let '(w', code, evs) := run H (create s) (Environment (args r)) w in
        if code =? 0 then
          let '(w'', reps) := up rest (name r :: ok) w' in
          (w'', {| step := name r; result := Created; events := evs |} :: reps)
        else
          (w', {| step := name r; result := Failed code; events := evs |}
               :: (skipped <$> rest))
      else
        let '(w', reps) := up rest ok w in
        (w', skipped s :: reps)
  end.

End Up.

End Engine.
(** ** Observations on runs, and some concrete hosts *)

Module Obs.
Import Text Sh Pulumi Exec.

(** The argument vectors of the external programs that ran, in order. *)
Fixpoint spawned (evs : list event) : list (list string) :=
  match evs with
  | [] => []
  | Spawn p _ :: rest => argv p :: spawned rest
  | _ :: rest => spawned rest
  end.

(** The same with what each program was given on standard input. *)
Fixpoint fed (evs : list event) : list (list string * string) :=
  match evs with
  | [] => []
  | Spawn p _ :: rest => (argv p, stdin p) :: fed rest
  | _ :: rest => fed rest
  end.

(** The first external program of a run and its exit status. *)
Fixpoint first_spawn (evs : list event) : option (list string * nat) :=
  match evs with
  | [] => None
  | Spawn p c :: _ => Some (argv p, c)
  | _ :: rest => first_spawn rest
  end.

(** The last external program of a run and its exit status. *)
Fixpoint last_spawn (evs : list event) : option (list string * nat) :=
  match evs with
  | [] => None
  | Spawn p c :: rest =>
      match last_spawn rest with
      | Some l => Some l
      | None => Some (argv p, c)
      end
  | _ :: rest => last_spawn rest
  end.

Fixpoint is_prefix (pre l : list string) : bool :=
  match pre, l with
  | [], _ => true
  | a :: pre', b :: l' => String.eqb a b && is_prefix pre' l'
  | _ :: _, [] => false
  end.

(** How often a program ran with arguments starting with [pre]. *)
Definition calls (pre : list string) (evs : list event) : nat :=
  length (filter (λ a, is_prefix pre a = true) (spawned evs)).

Fixpoint sleeps (evs : list event) : list nat :=
  match evs with
  | [] => []
  | Sleep n :: rest => n :: sleeps rest
  | _ :: rest => sleeps rest
  end.

Fixpoint iterations (evs : list event) : nat :=
  match evs with
  | [] => 0
  | Iter _ _ :: rest => S (iterations rest)
  | _ :: rest => iterations rest
  end.

(** The chunks written to standard output. *)
Fixpoint printed (evs : list event) : list string :=
  match evs with
  | [] => []
  | Out s :: rest => s :: printed rest
  | _ :: rest => printed rest
  end.

(** *** Static views *)







(** The source without comments and blank lines. *)
Definition code_of (src : source) : source :=
  match src with
  | Raw s => Raw (strip s)
  | OneLine c => OneLine (strip_cmd c)
  end.

(** The objects of a manifest: its [kind:] lines. *)
Definition kinds (manifest : string) : list string :=
  filter (λ l, starts "kind: " l = true) (lines manifest).

(** The documents of a manifest are separated by [---] lines. *)
Definition documents (manifest : string) : nat :=
  S (length (filter (λ l, String.eqb l "---" = true) (lines manifest))).

(** *** The dependency graph *)

(** Every resource depends on exactly the one registered before it. *)
Fixpoint chain_after (prev : list string) (rs : list Resource) : bool :=
  match rs with
  | [] => true
  | r :: rest => bool_decide (DependsOn r = prev) && chain_after [name r] rest
  end.

Definition strict_chain (steps : list Step) : bool :=
  chain_after [] (resource <$> steps).

Definition deps_of (rs : list Resource) (a : string) : list string :=
  match List.find (λ r, String.eqb (name r) a) rs with
  | Some r => DependsOn r
  | None => []
  end.

(** [a] depends on [b], directly or through other resources (in at most
    [fuel] links). *)
Fixpoint needs (fuel : nat) (rs : list Resource) (a b : string) : bool :=
  match fuel with
  | 0 => false
  | S fuel => existsb (λ d, String.eqb d b || needs fuel rs d b) (deps_of rs a)
  end.

Definition independent (rs : list Resource) (a b : string) : bool :=
  negb (String.eqb a b)
  && negb (needs (length rs) rs a b)
  && negb (needs (length rs) rs b a).

Fixpoint pairs (l : list string) : list (string * string) :=
  match l with
  | [] => []
  | a :: rest => ((λ b, (a, b)) <$> rest) ++ pairs rest
  end.

(** The pairs of steps neither of which depends on the other. *)
Definition parallel (steps : list Step) : list (string * string) :=
  let rs := resource <$> steps in
  filter (λ ab, independent rs ab.1 ab.2 = true) (pairs (name <$> rs)).


(** *** The processes the steps start *)

Definition cluster_show (e : gmap string string) : proc :=
  {| argv := [Docker.talosctl; "cluster"; "show"; "--name"; Docker.clusterName];
     penv := e; stdin := "" |}.

Definition cluster_create_argv : list string :=
  ["/opt/homebrew/bin/talosctl"; "cluster"; "create"; "--name"; "talos-local";
   "--controlplanes"; "1"; "--workers"; "2"; "--wait"; "--wait-timeout"; "10m"].





Definition rm_f (path : string) (e : gmap string string) : proc :=
  {| argv := ["rm"; "-f"; path]; penv := e; stdin := "" |}.


(** What the hardening step sends to the cluster: four labels, then the
    manifest on the standard input of [kubectl apply]. *)
Definition label_argv (ns l : string) : list string :=
  ["kubectl"; "label"; "namespace"; ns; l; "--overwrite"].

Definition payload : list (list string * string) := [
  (label_argv "kube-system" "pod-security.kubernetes.io/enforce=privileged", "");
  (label_argv "kube-system" "pod-security.kubernetes.io/warn=baseline", "");
  (label_argv "default" "pod-security.kubernetes.io/enforce=restricted", "");
  (label_argv "default" "pod-security.kubernetes.io/warn=restricted", "");
  (["kubectl"; "apply"; "-f"; "-"], Docker.netpol) ].

(** *** Existence probes *)


(** The query of the VM registry, and whether a listing has the VM. *)
Definition limactl_list (e : gmap string string) (input : string) : proc :=
  {| argv := ["limactl"; "list"; "--format"; "json"]; penv := e; stdin := input |}.

Definition vm_in (listing : string) : bool :=
  existsb (hit [Lima.name_entry]) (lines listing).

(** *** Readiness of the nodes *)

(** The query both loops over the nodes make. *)
Definition probe_nodes (e : gmap string string) (input : string) : proc :=
  {| argv := ["kubectl"; "get"; "nodes"; "--no-headers"]; penv := e; stdin := input |}.

Definition probe_argv : list string := ["kubectl"; "get"; "nodes"; "--no-headers"].

(** The query of the loop over the Docker daemon in the VM. *)
Definition docker_info (h : string) (e : gmap string string) (input : string) : proc :=
  {| argv := ["docker"; "info"];
     penv := <["DOCKER_HOST" := "unix://" +:+ Lima.dockerSocket h]> e;
     stdin := input |}.

(** What [grep -c " Ready "] counts in a listing. *)
Definition ready_lines (listing : string) : nat :=
  length (filter (λ l, hit [" Ready "] l = true) (lines listing)).

(** The value of [READY]: the count, or two lines of [0] when it is zero
    ([grep -c] prints 0 and fails, and [echo "0"] adds its own). *)
Definition ready_text (n : nat) : string :=
  if n =? 0 then "0" +:+ nl +:+ "0" else itoa n.

Definition nodes_ready (ready total : nat) : bool :=
  (ready =? total) && (0 <? total).

(** *** Hosts *)

(** A host without state on which every external program exits with the
    status [status] gives it and prints what [says] gives; writing a file
    succeeds; [wc] pads as on BSD. *)
Definition scripted (status : list string → nat) (prints : list string → string)
    : Host unit := {|
  spawn := λ _ p, (tt, status (argv p), prints (argv p));
  write := λ _ _ _, (tt, true);
  wc_pad := λ _, 7;
|}.

(** Every tool succeeds and prints nothing. *)
Definition all_ok : Host unit := scripted (λ _, 0) (λ _, "").

(** Every tool fails and prints nothing. *)
Definition all_fail : Host unit := scripted (λ _, 1) (λ _, "").

(** Only the program [bad] fails. *)
Definition failing (bad : string) : Host unit :=
  scripted (λ a, match a with
                 | name :: _ => if String.eqb name bad then 1 else 0
                 | [] => 0
                 end)
           (λ _, "").

(** A cluster of three nodes, all Ready. *)
Definition three_nodes : string :=
"talos-local-controlplane-1   Ready    control-plane   3m    v1.32.0
talos-local-worker-1         Ready    <none>          3m    v1.32.0
talos-local-worker-2         Ready    <none>          3m    v1.32.0
".

Definition cluster_up : Host unit :=
  scripted (λ _, 0)
           (λ a, if is_prefix ["kubectl"; "get"; "nodes"] a then three_nodes else "").

(** The VM is in the registry, stopped. *)
Definition vm_listed : Host unit :=
  scripted (λ _, 0)
           (λ a, if is_prefix ["limactl"; "list"] a
                 then q "{`name`:`talos-docker`,`status`:`Stopped`,`arch`:`aarch64`}" +:+ nl
                 else "").

(** A shell that has just started. *)
Definition fresh : shell unit := {| world := tt; env := ∅; vars := []; status := 0 |}.

(** The home directory of the examples. *)
Definition home : string := "/Users/dev".

(** *** More views of a run *)

(** The processes that ran, in order, with their environment. *)
Fixpoint procs (evs : list event) : list proc :=
  match evs with
  | [] => []
  | Spawn p _ :: rest => p :: procs rest
  | _ :: rest => procs rest
  end.

(** The files written through [> path]: path, content, success. *)
Fixpoint written (evs : list event) : list (string * string * bool) :=
  match evs with
  | [] => []
  | Wrote path content ok :: rest => (path, content, ok) :: written rest
  | _ :: rest => written rest
  end.

(** What the processes of a run see of the variable [x]. *)
Definition seen (x : string) (evs : list event) : list (option string) :=
  (λ p, penv p !! x) <$> procs evs.

(** The calls of [limactl] among the programs that ran. *)
Definition limactl_calls (evs : list event) : list (list string) :=
  filter (λ a, is_prefix ["limactl"] a = true) (spawned evs).

(** *** The VM in the registry *)

(** What [grep -A 5 NAME | grep -q RUNNING] answers on a listing. *)
Definition running_in (listing : string) : bool :=
  existsb (hit [Lima.running_entry])
    (lines (unlines (grep_after 5 Lima.name_entry 0 false false (lines listing)))).

(** Line [i] has [a], and line [j], at most [k] lines further down, has
    [b]. *)
Definition near (k : nat) (a b : string) (ls : list string) : Prop :=
  ∃ i j la lb,
    ls !! i = Some la ∧ contains a la = true ∧
    ls !! j = Some lb ∧ contains b lb = true ∧ i ≤ j ≤ i + k.

(** A call of [limactl] with the environment of the step. *)
Definition limactl (e : gmap string string) (args : list string) : proc :=
  {| argv := "limactl" :: args; penv := e; stdin := "" |}.

(** The calls of [limactl] the VM step makes, by what the registry
    answers: the VM is not listed (create it, start it), listed and found
    running (nothing to do), or listed and not found running (start it). *)
Definition vm_plan {World : Type} (H : Host World) (e : gmap string string)
    (w : World) : list proc :=
  let list := limactl_list e "" in
  let start := limactl e ["start"; "talos-docker"] in
  if vm_in (output_of H w list) then
    if running_in (output_of H (after H w list) list) then [list; list]
    else [list; list; start]
  else
    [list;
     limactl e ["create"; "--name=talos-docker"; "./talos-docker.yaml"; "--tty=false"];
     start].

(** The world after a list of processes has run. *)
Definition after_all {World : Type} (H : Host World) (ps : list proc) (w : World)
    : World :=
  foldl (after H) w ps.

(** *** Probes that fail in a row *)

(** The number of probes of the Docker daemon that fail before one
    succeeds, from the world [w] on, counting at most [n].  A failed probe
    leaves the world the probe has made. *)
Fixpoint docker_failures {World : Type} (H : Host World) (p : proc) (n : nat)
    (w : World) : nat :=
  match n with
  | 0 => 0
  | S n =>
      if exit_of H w p =? 0 then 0
      else S (docker_failures H p n (after H w p))
  end.

(** The same for the nodes: a turn makes two queries and fails unless
    the counts it reads off them say that all nodes are Ready. *)
Fixpoint node_failures {World : Type} (H : Host World) (p : proc) (n : nat)
    (w : World) : nat :=
  match n with
  | 0 => 0
  | S n =>
      let w1 := after H w p in
      if nodes_ready (ready_lines (output_of H w p)) (newlines (output_of H w1 p)) then 0
      else S (node_failures H p n (after H w1 p))
  end.

(** *** More hosts *)

(** Two VMs in the registry: the one of the program, stopped, and after
    it another one that runs. *)
Definition two_vms : Host unit :=
  scripted (λ _, 0)
           (λ a, if is_prefix ["limactl"; "list"] a
                 then q "{`name`:`talos-docker`,`status`:`Stopped`,`arch`:`aarch64`}" +:+ nl
                      +:+ q "{`name`:`default`,`status`:`Running`,`arch`:`aarch64`}" +:+ nl
                 else "").

(** The Docker daemon answers from the third probe on; the world is the
    number of probes made so far. *)
Definition docker_late : Host nat := {|
  spawn := λ n p,
    if is_prefix ["docker"; "info"] (argv p)
    then (S n, if 2 <=? n then 0 else 1, "Server Version: 27.3.1" +:+ nl)
    else (n, 0, "");
  write := λ n _ _, (n, true);
  wc_pad := λ _, 0;
|}.

(** The file system is read-only: every program works, no file can be
    written. *)
Definition read_only : Host unit := {|
  spawn := λ _ _, (tt, 0, "");
  write := λ _ _ _, (tt, false);
  wc_pad := λ _, 0;
|}.

End Obs.


Arguments Obs.calls : simpl never.
(** * Properties *)

(** Appending to a literal text computes. *)
Arguments String.append !_ _ : simpl nomatch.

(** ** Text *)

Section TextFacts.
Import Text.

Lemma append_nil_r (s : string) : s +:+ "" = s.
Proof. induction s as [|c s IH]; [done|]. simpl. by rewrite IH. Qed.

Lemma append_assoc (a b c : string) : (a +:+ b) +:+ c = a +:+ b +:+ c.
Proof. induction a as [|x a IH]; [done|]. simpl. by rewrite IH. Qed.

Lemma digits_string_of_uint d : digits (NilEmpty.string_of_uint d) = true.
Proof. induction d; simpl; by rewrite ?IHd. Qed.

Lemma to_uint_not_nil n : Nat.to_uint n ≠ Decimal.Nil.
Proof.
  intros E. pose proof (Unsigned.of_to n) as Hn. rewrite E in Hn.
  simpl in Hn. subst n. discriminate E.
Qed.

Lemma digits_itoa n : digits (itoa n) = true.
Proof.
  unfold itoa, NilZero.string_of_uint.
  destruct (Nat.to_uint n); auto using digits_string_of_uint.
  all: apply (digits_string_of_uint (_ _)).
Qed.

Lemma itoa_not_empty n : itoa n ≠ "".
Proof.
  unfold itoa, NilZero.string_of_uint.
  pose proof (to_uint_not_nil n). by destruct (Nat.to_uint n).
Qed.

Lemma atoi_itoa n : atoi (itoa n) = Some n.
Proof.
  unfold atoi, itoa. rewrite NilZero.usu; [|apply to_uint_not_nil].
  by rewrite Unsigned.of_to.
Qed.

Lemma itoa_inj n m : itoa n = itoa m → n = m.
Proof.
  intros E. apply (f_equal atoi) in E. rewrite !atoi_itoa in E. congruence.
Qed.

Lemma itoa_eqb n m : String.eqb (itoa n) (itoa m) = (n =? m).
Proof.
  destruct (Nat.eqb_spec n m) as [->|Hne].
  - apply String.eqb_refl.
  - apply String.eqb_neq. intros E. by apply Hne, itoa_inj.
Qed.

Lemma digit_plain c :
  digit c = true → contains (String c "") " " = false ∧ c ≠ "010"%char.
Proof. destruct c as [[] [] [] [] [] [] [] []]; by vm_compute. Qed.

Lemma digits_cons c s : digits (String c s) = true → digit c = true ∧ digits s = true.
Proof. intros Hd. by apply andb_true_iff in Hd. Qed.

(** Digits survive [tr -d ' '] and command substitution unchanged. *)
Lemma delete_spaces_digits s k :
  digits s = true → delete_chars " " (s +:+ k) = s +:+ delete_chars " " k.
Proof.
  induction s as [|c s IH]; [done|].
  intros [Hc Hs]%digits_cons. destruct (digit_plain c Hc) as [E _].
  change (String c s +:+ k) with (String c (s +:+ k)).
  change (delete_chars " " (String c (s +:+ k)))
    with (if contains (String c "") " " then delete_chars " " (s +:+ k)
          else String c (delete_chars " " (s +:+ k))).
  rewrite E, (IH Hs). done.
Qed.

Lemma delete_spaces_spaces n k :
  delete_chars " " (spaces n +:+ k) = delete_chars " " k.
Proof. induction n as [|n IH]; [done|]. exact IH. Qed.

Lemma chomp_cons c s :
  c ≠ "010"%char → chomp (String c s) = String c (chomp s).
Proof.
  intros Hc. change (chomp (String c s)) with
    (match c, chomp s with "010"%char, "" => "" | _, r => String c r end).
  destruct c as [[] [] [] [] [] [] [] []]; try done.
Qed.

Lemma chomp_digits_nl s : digits s = true → chomp (s +:+ nl) = s.
Proof.
  induction s as [|c s IH]; [done|].
  intros [Hc Hs]%digits_cons. destruct (digit_plain c Hc) as [_ E].
  change (String c s +:+ nl) with (String c (s +:+ nl)).
  by rewrite (chomp_cons _ _ E), (IH Hs).
Qed.

(** What [grep -c] and [echo "0"] leave in the variable when nothing
    matched: two lines, never a numeral. *)
Lemma two_zeros_not_itoa m : "0" +:+ nl +:+ "0" ≠ itoa m.
Proof.
  intros E. pose proof (digits_itoa m) as Hd. by rewrite <- E in Hd.
Qed.

End TextFacts.

(** ** Paths *)

Section PathFacts.
Import Text Go.

Lemma elements_not_nil s : elements s ≠ [].
Proof.
  destruct s as [|c s]; [done|]. cbn [elements].
  destruct (Ascii.eqb c "/"); [done|]. by destruct (elements s).
Qed.

Lemma concat_cons (x : string) xs :
  xs ≠ [] → String.concat "/" (x :: xs) = x +:+ "/" +:+ String.concat "/" xs.
Proof. by destruct xs. Qed.

(** A path is its elements with slashes between them. *)
Lemma concat_elements s : String.concat "/" (elements s) = s.
Proof.
  induction s as [|c s IH]; [done|]. cbn [elements].
  destruct (Ascii.eqb_spec c "/") as [->|Hc].
  - rewrite concat_cons by apply elements_not_nil. by rewrite IH.
  - pose proof (elements_not_nil s) as Hne.
    destruct (elements s) as [|e es]; [done|].
    destruct es as [|e' es]; cbn in IH |- *; by rewrite <- IH.
Qed.

Lemma elements_app a b : elements (a +:+ "/" +:+ b) = elements a ++ elements b.
Proof.
  induction a as [|c a IH]; [done|].
  change (String c a +:+ "/" +:+ b) with (String c (a +:+ "/" +:+ b)).
  cbn [elements]. rewrite IH. destruct (Ascii.eqb c "/"); [done|].
  pose proof (elements_not_nil a). by destruct (elements a).
Qed.

Lemma keep_named rooted out l :
  forallb named l = true → foldl (keep rooted) out l = rev l ++ out.
Proof.
  revert out. induction l as [|e l IH]; intros out Hl; [done|].
  cbn [forallb] in Hl. apply andb_true_iff in Hl as [He Hl].
  cbn [foldl rev]. rewrite IH by done. rewrite <- app_assoc. f_equal.
  unfold named in He. unfold keep.
  destruct (String.eqb e ""), (String.eqb e "."), (String.eqb e ".."); done.
Qed.

(** [Clean] leaves an absolute clean path as it is. *)
Lemma Clean_tidy p : tidy p = true → Clean p = p.
Proof.
  unfold tidy. intros Ht. pose proof (concat_elements p) as Hp.
  destruct (elements p) as [|[|] [|e es]] eqn:E; try done.
  rewrite concat_cons in Hp by done. unfold Clean. rewrite E.
  assert (starts "/" p = true) as -> by (by rewrite <- Hp).
  change (foldl (keep true) [] ("" :: e :: es)) with (foldl (keep true) [] (e :: es)).
  by rewrite keep_named, app_nil_r, rev_involutive.
Qed.

Lemma tidy_snoc p x :
  tidy p = true → named x = true → elements x = [x] → tidy (p +:+ "/" +:+ x) = true.
Proof.
  unfold tidy. rewrite elements_app. intros Ht Hx ->.
  destruct (elements p) as [|[|] [|e es]]; try done.
  change (("" :: e :: es) ++ [x]) with ("" :: e :: (es ++ [x])).
  cbn [forallb] in *. apply andb_true_iff in Ht as [-> Ht].
  rewrite forallb_app, Ht. cbn. by rewrite Hx.
Qed.

(** Joining a clean absolute path and a name puts a slash between
    them. *)
Lemma Join_tidy p x :
  tidy p = true → named x = true → elements x = [x] →
  Join [p; x] = p +:+ "/" +:+ x ∧ tidy (p +:+ "/" +:+ x) = true.
Proof.
  intros Hp Hx Ex. split; [|by apply tidy_snoc].
  unfold Join. cbn [List.filter].
  assert (String.eqb p "" = false) as -> by (by destruct p).
  assert (String.eqb x "" = false) as -> by (by destruct x).
  cbn [negb String.concat]. by apply Clean_tidy, tidy_snoc.
Qed.

End PathFacts.
(** ** Events *)

Section EventFacts.
Import Text Sh Exec Obs.


Lemma sleeps_app a b : sleeps (a ++ b) = sleeps a ++ sleeps b.
Proof. induction a as [|[] a IH]; cbn; by rewrite ?IH. Qed.

Lemma iterations_app a b : iterations (a ++ b) = iterations a + iterations b.
Proof. induction a as [|[] a IH]; cbn; by rewrite ?IH. Qed.









End EventFacts.

(** ** Running the scripts *)

(** Evaluate the part of a script that comes first, then hand its result
    to the part that follows. *)
Ltac run_head :=
  match goal with
  | |- context [Exec.and_then ?r ?k] =>
      let r' := eval cbn in r in change (Exec.and_then r k) with (Exec.and_then r' k)
  end; cbn [Exec.and_then].

Section ExecFacts.
Import Text Sh Pulumi Exec Obs.
Context {World : Type} (H : Host World).

Lemma exec_script_run c rest input st :
  exec_script H (Run c rest) input st =
  and_then (exec H c input st) (exec_script H rest input).
Proof. done. Qed.

Lemma for_each_ext (f g : shell World → @result World) x vs st :
  (∀ st, f st = g st) → for_each f x vs st = for_each g x vs st.
Proof.
  intros E. revert st. induction vs as [|v vs IH]; intros st; [done|].
  cbn [for_each]. rewrite E. destruct (g _) as [[[] st'] evs]; try done.
  by rewrite IH.
Qed.

Lemma and_then_assoc (r : @result World) (f g : shell World → @result World) :
  and_then (and_then r f) g = and_then r (λ st, and_then (f st) g).
Proof.
  destruct r as [[[] st] evs]; cbn; try done.
  destruct (f st) as [[[] st'] evs']; cbn; try done.
  destruct (g st') as [[sig st''] evs'']. by rewrite app_assoc.
Qed.

Lemma and_then_ext (r : @result World) (f g : shell World → @result World) :
  (∀ st, f st = g st) → and_then r f = and_then r g.
Proof. intros E. destruct r as [[[] st] evs]; cbn; by rewrite ?E. Qed.

Lemma and_then_go (r : @result World) : and_then r (λ st, (Go, st, [])) = r.
Proof. destruct r as [[[] st] evs]; cbn; by rewrite ?app_nil_r. Qed.

(** A script runs its first [n] lines, then the others. *)
Lemma exec_block_split n ls input st :
  exec_script H (block ls) input st =
  and_then (exec_script H (block (take n ls)) input st)
           (exec_script H (block (drop n ls)) input).
Proof.
  revert ls st. induction n as [|n IH]; intros ls st.
  { rewrite take_0, drop_0. cbn. by destruct (exec_script _ _ _ _) as [[??]?]. }
  destruct ls as [|[| |c] ls]; cbn [take drop block].
  - done.
  - apply IH.
  - apply IH.
  - rewrite !exec_script_run, and_then_assoc.
    apply and_then_ext. intros st'. apply IH.
Qed.

Lemma exec_for x gen body input st :
  exec H (For x gen body) input st =
  let '(st1, evs1) := sub st (exec H gen input st) in
  let '(sig, st2, evs2) :=
    for_each (exec_script H body input) x (fields (chomp (stdout evs1)))
      (set_status 0 st1) in
  (sig, st2, silent evs1 ++ evs2).
Proof. done. Qed.

Lemma exec_pipe l r input st :
  exec H (Pipe l r) input st =
  let '(st1, evs1) := sub st (exec H l input st) in
  let '(st2, evs2) := sub st1 (exec H r (stdout evs1) st1) in
  (Go, st2, silent evs1 ++ evs2).
Proof. done. Qed.

Lemma exec_or l r input st :
  exec H (OrElse l r) input st =
  and_then (exec H l input st)
    (λ st1, if status st1 =? 0 then (Go, st1, []) else exec H r input st1).
Proof. done. Qed.

Lemma exec_and l r input st :
  exec H (AndAlso l r) input st =
  and_then (exec H l input st)
    (λ st1, if status st1 =? 0 then exec H r input st1 else (Go, st1, [])).
Proof. done. Qed.

Lemma exec_capture x c input st :
  exec H (Capture x c) input st =
  let '(st1, evs1) := sub st (exec H c input st) in
  (Go, set_var x (chomp (stdout evs1)) st1, silent evs1).
Proof. done. Qed.

Lemma exec_if c t input st :
  exec H (If c t) input st =
  and_then (exec H c input st)
    (λ st1, if status st1 =? 0 then exec_script H t input st1
            else (Go, set_status 0 st1, [])).
Proof. done. Qed.

Lemma exec_ifelse c t e input st :
  exec H (IfElse c t e) input st =
  and_then (exec H c input st)
    (λ st1, if status st1 =? 0 then exec_script H t input st1
            else exec_script H e input st1).
Proof. done. Qed.

(** Comments and blank lines do not change what a script does. *)
Lemma exec_strip :
  (∀ c input st, exec H (strip_cmd c) input st = exec H c input st) ∧
  (∀ s input st, exec_script H (strip s) input st = exec_script H s input st).
Proof.
  apply syntax_ind.
  - done.
  - done.
  - intros l IHl r IHr input st. change (strip_cmd (Pipe l r)) with (Pipe (strip_cmd l) (strip_cmd r)).
    rewrite !exec_pipe, IHl. destruct (sub _ _) as [st1 evs1]. by rewrite IHr.
  - intros l IHl r IHr input st. change (strip_cmd (OrElse l r)) with (OrElse (strip_cmd l) (strip_cmd r)).
    rewrite !exec_or, IHl. apply and_then_ext. intros st1. by rewrite IHr.
  - intros l IHl r IHr input st. change (strip_cmd (AndAlso l r)) with (AndAlso (strip_cmd l) (strip_cmd r)).
    rewrite !exec_and, IHl. apply and_then_ext. intros st1. by rewrite IHr.
  - intros x c IH input st. change (strip_cmd (Capture x c)) with (Capture x (strip_cmd c)).
    by rewrite !exec_capture, IH.
  - intros c IHc t IHt input st. change (strip_cmd (If c t)) with (If (strip_cmd c) (strip t)).
    rewrite !exec_if, IHc. apply and_then_ext. intros st1. by rewrite IHt.
  - intros c IHc t IHt e IHe input st.
    change (strip_cmd (IfElse c t e)) with (IfElse (strip_cmd c) (strip t) (strip e)).
    rewrite !exec_ifelse, IHc. apply and_then_ext. intros st1. by rewrite IHt, IHe.
  - intros x gen IHg body IHb input st.
    change (strip_cmd (For x gen body)) with (For x (strip_cmd gen) (strip body)).
    rewrite !exec_for, IHg. destruct (sub _ _) as [st1 evs1].
    by rewrite (for_each_ext _ (exec_script H body input)).
  - done.
  - intros rest IH input st. apply IH.
  - intros t rest IH input st. apply IH.
  - intros c IHc rest IHr input st. change (strip (Run c rest)) with (Run (strip_cmd c) (strip rest)).
    rewrite !exec_script_run, IHc. apply and_then_ext. intros st1. apply IHr.
Qed.

Lemma run_code_of src e w : run H (code_of src) e w = run H src e w.
Proof.
  unfold run. destruct src as [s|c]; cbn [code_of].
  - by rewrite (proj2 exec_strip).
  - by rewrite (proj1 exec_strip).
Qed.

(** Two sources with the same commands run alike. *)
Lemma run_same_code src src' e w :
  code_of src = code_of src' → run H src e w = run H src' e w.
Proof. intros E. by rewrite <- (run_code_of src), E, run_code_of. Qed.

(** A loop over [$(seq lo hi)] runs its body on the numerals [seq] prints. *)
Lemma exec_for_seq x slo shi lo hi body input st :
  atoi slo = Some lo → atoi shi = Some hi →
  exec H (For x (call ["seq"; slo; shi]) body) input st =
  for_each (exec_script H body input) x (fields (chomp (seq_out lo hi +:+ "")))
    (set_status 0 st).
Proof.
  intros Hlo Hhi. rewrite exec_for.
  replace (exec H (call ["seq"; slo; shi]) input st)
    with (Go, set_status 0 st, [Out (seq_out lo hi)]).
  - destruct st as [w e vs s]. cbn. by destruct (for_each _ _ _ _) as [[??]?].
  - destruct st as [w e vs s]. cbn. by rewrite Hlo, Hhi.
Qed.

(** *** The loop over the nodes *)

Lemma ready_text_eqb r t :
  String.eqb (ready_text r) (itoa t) = negb (r =? 0) && (r =? t).
Proof.
  unfold ready_text. destruct (r =? 0); cbn [negb andb].
  - apply String.eqb_neq, two_zeros_not_itoa.
  - apply itoa_eqb.
Qed.

Lemma count_ready_run input st :
  let p := probe_nodes (env st) input in
  exec H Docker.count_ready input st =
    (Go,
     {| world := after H (world st) p; env := env st;
        vars := ("READY", ready_text (ready_lines (output_of H (world st) p))) :: vars st;
        status := 0 |},
     [Spawn p (exit_of H (world st) p)]).
Proof.
  destruct st as [w e vs s]. cbn. rewrite append_nil_r.
  fold (probe_nodes e input). fold (ready_lines (output_of H w (probe_nodes e input))).
  unfold ready_text, found.
  destruct (ready_lines _) as [|n] eqn:E; cbn.
  - done.
  - rewrite append_nil_r, chomp_digits_nl by apply digits_itoa. done.
Qed.

Lemma count_total_run input st :
  let p := probe_nodes (env st) input in
  exec H Docker.count_total input st =
    (Go,
     {| world := after H (world st) p; env := env st;
        vars := ("TOTAL", itoa (newlines (output_of H (world st) p))) :: vars st;
        status := 0 |},
     [Spawn p (exit_of H (world st) p)]).
Proof.
  destruct st as [w e vs s]. cbn. rewrite !append_nil_r.
  fold (probe_nodes e input). unfold wc_l.
  rewrite delete_spaces_spaces, delete_spaces_digits by apply digits_itoa.
  change (delete_chars " " nl) with nl.
  rewrite chomp_digits_nl by apply digits_itoa. done.
Qed.

(** One turn of the loop: two queries, then either the success line and
    [break], or the progress line and [sleep 5]. *)
Lemma nodes_body_run input st :
  let p := probe_nodes (env st) input in
  let w1 := after H (world st) p in
  let ready := ready_lines (output_of H (world st) p) in
  let total := newlines (output_of H w1 p) in
  let st' := {| world := after H w1 p; env := env st;
                vars := ("TOTAL", itoa total) :: ("READY", ready_text ready) :: vars st;
                status := 0 |} in
  exec_script H Docker.nodes_body input st =
    if nodes_ready ready total then
      (Break, st',
       [Spawn p (exit_of H (world st) p); Spawn p (exit_of H w1 p);
        Out ("All " +:+ itoa total +:+ " nodes are ready" +:+ nl)])
    else
      (Go, st',
       [Spawn p (exit_of H (world st) p); Spawn p (exit_of H w1 p);
        Out ("Waiting for nodes... (" +:+ ready_text ready +:+ "/" +:+ itoa total
             +:+ " ready)" +:+ nl);
        Sleep 5]).
Proof.
  intros p w1 ready total st'.
  unfold Docker.nodes_body, block.
  rewrite exec_script_run, count_ready_run. cbn [and_then].
  rewrite exec_script_run, count_total_run. cbn [and_then env world].
  fold p w1 ready total.
  cbn. rewrite atoi_itoa, ready_text_eqb. unfold nodes_ready.
  destruct (ready =? 0) eqn:E0, (ready =? total) eqn:E, total as [|t];
    cbn; repeat (rewrite append_assoc; cbn); try done.
  apply Nat.eqb_eq in E0, E. congruence.
Qed.

(** The loop over any list of values: it ends normally, two queries per
    turn, a sleep of five seconds after every turn but a successful one. *)
Lemma nodes_for_each input vs st :
  ∃ st' evs,
    for_each (exec_script H Docker.nodes_body input) "i" vs st = (Go, st', evs)
    ∧ env st' = env st
    ∧ iterations evs ≤ length vs
    ∧ spawned evs = repeat probe_argv (2 * iterations evs)
    ∧ ∃ j, sleeps evs = repeat 5 j ∧ j ≤ iterations evs.
Proof.
  revert st. induction vs as [|v vs IH]; intros st.
  { exists st, []. split_and!; try done; try (cbn; lia). by exists 0. }
  cbn [for_each]. rewrite nodes_body_run.
  destruct (nodes_ready _ _).
  - eexists _, _. split; [done|]. cbn. split_and!; try done; try lia.
    exists 0. split; [done|lia].
  - match goal with |- context [for_each _ _ _ ?s] =>
      destruct (IH s) as (st' & evs & -> & He & Hi & Hs & j & Hj & Hle) end.
    eexists _, _. split; [done|]. cbn. split_and!; try done; try lia.
    + rewrite Hs. replace (iterations evs + S (iterations evs + 0)) with (S (2 * iterations evs)) by lia. done.
    + exists (S j). rewrite Hj. split; [done|lia].
Qed.

(** The loop as the script runs it: at most sixty turns. *)
Lemma nodes_loop_run input st :
  ∃ st' evs,
    exec H Docker.nodes_loop input st = (Go, st', evs)
    ∧ env st' = env st
    ∧ iterations evs ≤ 60
    ∧ spawned evs = repeat probe_argv (2 * iterations evs)
    ∧ ∃ j, sleeps evs = repeat 5 j ∧ j ≤ iterations evs.
Proof.
  unfold Docker.nodes_loop. rewrite (exec_for_seq _ _ _ 1 60) by done.
  match goal with |- context [for_each _ _ ?l ?s] =>
    destruct (nodes_for_each input l s) as (st' & evs & -> & He & Hi & Hs);
    assert (length l = 60) as Hl by (by vm_compute)
  end.
  rewrite Hl in Hi. exists st', evs. by destruct st.
Qed.

(** *** The loop over the Docker daemon *)




(** *** The scripts with a loop *)

Lemma wait_run h e w :
  ∃ loop pw cw ow pn o,
    trace (run H (Docker.waitForK8s_create h) e w) =
      Out ("Waiting for Kubernetes nodes to be ready..." +:+ nl) :: loop ++
      [Out ("Waiting for system pods..." +:+ nl); Spawn pw cw; Out ow;
       Out ("Kubernetes is ready" +:+ nl);
       Spawn pn (code (run H (Docker.waitForK8s_create h) e w)); Out o]
    ∧ argv pw = ["kubectl"; "wait"; "--for=condition=Ready"; "pods"; "--all"; "-n";
                 "kube-system"; "--timeout=300s"]
    ∧ argv pn = ["kubectl"; "get"; "nodes"; "-o"; "wide"]
    ∧ iterations loop ≤ 60
    ∧ spawned loop = repeat probe_argv (2 * iterations loop)
    ∧ ∃ j, sleeps loop = repeat 5 j ∧ j ≤ iterations loop.
Proof.
  unfold run, trace, code, Docker.waitForK8s_create.
  rewrite (exec_block_split 4). cbn [take drop]. run_head.
  cbn [block]. rewrite exec_script_run.
  match goal with |- context [exec H Docker.nodes_loop ?i ?s] =>
    destruct (nodes_loop_run i s) as (st' & evs & -> & He & Hi & Hs & Hj) end.
  cbn [and_then]. cbn.
  match goal with |- context [exit_of H ?w ?p =? 0] => destruct (exit_of H w p =? 0) end;
    cbn; (eexists evs, _, _, _, _, _; split_and!; [reflexivity|done..]).
Qed.


End ExecFacts.
(** ** The texts the programs build *)

Section Texts.
Import Text Sh Pulumi Exec Obs.

(** Every script, printed, is the text the Go program hands to Pulumi. *)
Lemma docker_faithful h : Forall faithful (Docker.steps h).
Proof. repeat constructor. Qed.

Lemma lima_faithful h : Forall faithful (Lima.steps h).
Proof. repeat constructor. Qed.

(** The two programs share the scripts around the nodes and the cluster,
    up to comments. *)
Lemma same_wait h :
  code_of (Lima.waitForK8s_create h) = code_of (Docker.waitForK8s_create h).
Proof. done. Qed.

Lemma same_create_cluster :
  code_of Lima.createCluster_create = code_of Docker.createCluster_create.
Proof. done. Qed.

End Texts.

(** ** The scripts without a loop *)

Section Straight.
Import Text Sh Pulumi Exec Obs.
Context {World : Type} (H : Host World).

Lemma create_cluster_run e w :
  let r := run H Docker.createCluster_create e w in
  first_spawn (trace r) = Some (argv (cluster_show e), exit_of H w (cluster_show e))
  ∧ code r = 0
  ∧ (exit_of H w (cluster_show e) = 0 →
     trace r = [Spawn (cluster_show e) 0;
                Out ("Talos cluster 'talos-local' already exists" +:+ nl)])
  ∧ (exit_of H w (cluster_show e) ≠ 0 →
     spawned (trace r) = [argv (cluster_show e); cluster_create_argv]).
Proof.
  unfold run, trace, code, Docker.createCluster_create. cbn.
  fold (cluster_show e).
  destruct (exit_of H w (cluster_show e)) as [|c] eqn:E; cbn; by split_and!.
Qed.



(** The hardening step runs the same five commands on every host. *)
Lemma docker_hardening_run h e w :
  let r := run H (Docker.applySecurityHardening_create h) e w in
  fed (trace r) = payload ∧ code r = 0.
Proof. unfold run, trace, code, Docker.applySecurityHardening_create. cbn. done. Qed.

Lemma lima_hardening_run h e w :
  let r := run H (Lima.applySecurityHardening_create h) e w in
  fed (trace r) = payload ∧ code r = 0.
Proof. unfold run, trace, code, Lima.applySecurityHardening_create. cbn. done. Qed.



(** A delete action that is [rm -f path] exits as [rm] does. *)
Lemma rm_run path e w :
  code (run H (OneLine (Simple [W (Lit "rm"); W (Lit "-f"); W (Lit path)])) e w)
  = exit_of H w (rm_f path e).
Proof. done. Qed.

End Straight.
(** ** The step executor *)

Section EngineFacts.
Import Text Sh Pulumi Exec Engine Obs.
Context {World : Type} (H : Host World).

Lemma named_in d ok : existsb (String.eqb d) ok = true → d ∈ ok.
Proof.
  intros (x & Hx & E)%existsb_exists. apply String.eqb_eq in E. subst x.
  by apply list_elem_of_In.
Qed.

Lemma skipped_not_ran (rest : list Step) i r :
  (skipped <$> rest) !! i = Some r → ran r = false.
Proof.
  rewrite list_lookup_fmap. destruct (rest !! i); [|done]. by intros [= <-].
Qed.

(** A create action that ran had every dependency either in [ok] at the
    start or created by an earlier step of the run. *)
Lemma up_deps steps :
  ∀ ok w i s r,
    steps !! i = Some s → (up H steps ok w).2 !! i = Some r → ran r = true →
    ∀ d, d ∈ DependsOn (resource s) →
      d ∈ ok ∨ ∃ j r', j < i ∧ (up H steps ok w).2 !! j = Some r'
                        ∧ step r' = d ∧ succeeded r' = true.
Proof.
  induction steps as [|s0 rest IH]; intros ok w i s r Hs Hr Hran d Hd; [done|].
  cbn [up] in *. destruct (forallb _ _) eqn:Edeps.
  - destruct (run H _ _ w) as [[w' c] evs]. destruct (c =? 0) eqn:Ec.
    + destruct (up H rest _ w') as [w'' reps] eqn:Eup. cbn [snd] in *.
      destruct i as [|i].
      * injection Hs as <-. left. apply named_in.
        rewrite forallb_forall in Edeps. apply Edeps. by apply list_elem_of_In.
      * cbn in Hs, Hr.
        destruct (IH (name (resource s0) :: ok) w' i s r Hs)
          with (d := d) as [Hok|(j & r' & Hj & Hr' & Hd' & Hc)]; try done.
        { by rewrite Eup. }
        -- apply elem_of_cons in Hok as [->|Hok]; [|by left].
           right. exists 0, {| step := name (resource s0); result := Created; events := evs |}.
           split_and!; try done. lia.
        -- right. exists (S j), r'. rewrite Eup in Hr'. split_and!; try done. lia.
    + cbn [snd] in *. destruct i as [|i].
      * injection Hs as <-. left. apply named_in.
        rewrite forallb_forall in Edeps. apply Edeps. by apply list_elem_of_In.
      * cbn in Hr. apply skipped_not_ran in Hr. congruence.
  - destruct (up H rest ok w) as [w' reps] eqn:Eup. cbn [snd] in *.
    destruct i as [|i].
    + injection Hr as <-. done.
    + cbn in Hs, Hr.
      destruct (IH ok w i s r Hs) with (d := d) as [Hok|(j & r' & Hj & Hr' & Hd' & Hc)];
        try done.
      { by rewrite Eup. }
      * by left.
      * right. exists (S j), r'. rewrite Eup in Hr'. split_and!; try done. lia.
Qed.

(** After a create action that failed, no create action runs. *)
Lemma up_fail_fast steps :
  ∀ ok w i j ri rj,
    (up H steps ok w).2 !! i = Some ri → (up H steps ok w).2 !! j = Some rj →
    i < j → ran ri = true → succeeded ri = false → ran rj = false.
Proof.
  induction steps as [|s0 rest IH]; intros ok w i j ri rj Hi Hj Hlt Hran Hfail; [done|].
  cbn [up] in *. destruct j as [|j]; [lia|]. destruct (forallb _ _).
  - destruct (run H _ _ w) as [[w' c] evs]. destruct (c =? 0).
    + destruct (up H rest _ w') as [w'' reps] eqn:Eup. cbn [snd] in *.
      destruct i as [|i]; [by injection Hi as <-|]. cbn in Hi, Hj.
      apply (IH (name (resource s0) :: ok) w' i j ri rj); rewrite ?Eup; try done. lia.
    + cbn [snd] in *. cbn in Hj. by apply skipped_not_ran in Hj.
  - destruct (up H rest ok w) as [w' reps] eqn:Eup. cbn [snd] in *.
    destruct i as [|i]; [by injection Hi as <-|]. cbn in Hi, Hj.
    apply (IH ok w i j ri rj); rewrite ?Eup; try done. lia.
Qed.

(** When the directory step of [main.go] fails, no other create action
    runs. *)
Lemma docker_up_first_fails h w :
  code (run H (Docker.createTalosDir_create h) ∅ w) ≠ 0 →
  ran <$> (up H (Docker.steps h) [] w).2 = [true; false; false; false; false; false].
Proof.
  unfold code. intros Hc. unfold Docker.steps. cbn [up resource DependsOn Docker.createTalosDir
    forallb create args Environment].
  destruct (run H _ _ w) as [[w' c] evs]. cbn in Hc.
  destruct c as [|c]; [done|]. cbn. done.
Qed.

(** The same in the VM program. *)
Lemma lima_up_first_fails h w :
  code (run H (Lima.createDirs_create h) ∅ w) ≠ 0 →
  ran <$> (up H (Lima.steps h) [] w).2
  = [true; false; false; false; false; false; false; false].
Proof.
  unfold code. intros Hc. unfold Lima.steps. cbn [up resource DependsOn Lima.createDirs
    forallb create args Environment].
  destruct (run H _ _ w) as [[w' c] evs]. cbn in Hc.
  destruct c as [|c]; [done|]. cbn. done.
Qed.

End EngineFacts.
(** ** Lines *)

Section LineFacts.
Import Text Exec Obs.

Lemma lines_go_cons cur c s :
  c ≠ "010"%char →
  lines_go cur (String c s) = lines_go (λ k, cur (String c k)) s.
Proof. intros Hc. destruct c as [[] [] [] [] [] [] [] []]; done. Qed.

Lemma newlines_cons c s :
  c ≠ "010"%char → newlines (String c s) = newlines s.
Proof. intros Hc. destruct c as [[] [] [] [] [] [] [] []]; done. Qed.

Lemma newlines_zero_cons c s :
  newlines (String c s) = 0 → c ≠ "010"%char ∧ newlines s = 0.
Proof. destruct c as [[] [] [] [] [] [] [] []]; done. Qed.

Lemma lines_go_line cur l rest :
  newlines l = 0 →
  lines_go cur (l +:+ nl +:+ rest) = cur l :: lines_go (λ k, k) rest.
Proof.
  revert cur. induction l as [|c l IH]; intros cur Hl; [done|].
  apply newlines_zero_cons in Hl as [Hc Hl].
  change (String c l +:+ nl +:+ rest) with (String c (l +:+ nl +:+ rest)).
  by rewrite lines_go_cons, IH.
Qed.

(** Lines put together and taken apart again are the same lines. *)
Lemma lines_unlines ls :
  Forall (λ l, newlines l = 0) ls → lines (unlines ls) = ls.
Proof.
  induction 1 as [|l ls Hl _ IH]; [done|].
  unfold lines in *. cbn [unlines]. by rewrite lines_go_line, IH.
Qed.

Lemma lines_go_plain cur s :
  (∀ k, newlines k = 0 → newlines (cur k) = 0) →
  Forall (λ l, newlines l = 0) (lines_go cur s).
Proof.
  revert cur. induction s as [|c s IH]; intros cur Hcur.
  - cbn. pose proof (Hcur "" eq_refl). destruct (cur ""); by repeat constructor.
  - destruct (Ascii.eqb_spec c "010") as [->|Hc].
    + cbn. constructor; [by apply Hcur|]. by apply IH.
    + rewrite lines_go_cons by done. apply IH.
      intros k Hk. apply Hcur. by rewrite newlines_cons.
Qed.

Lemma lines_plain s : Forall (λ l, newlines l = 0) (lines s).
Proof. by apply lines_go_plain. Qed.

Lemma grep_after_plain k pat left gap shown ls :
  Forall (λ l, newlines l = 0) ls →
  Forall (λ l, newlines l = 0) (grep_after k pat left gap shown ls).
Proof.
  intros Hls. revert left gap shown.
  induction Hls as [|l ls Hl _ IH]; intros left gap shown; [constructor|].
  cbn [grep_after]. destruct (contains pat l).
  - apply Forall_app. split; [by destruct (gap && shown); repeat constructor|].
    by constructor.
  - destruct left; [apply IH|]. by constructor.
Qed.

(** What [grep -A k a] lets through has a line with [b] exactly when a
    line with [b] is among the first [left] lines or at most [k] lines after
    a line with [a]. *)
Lemma grep_after_has k a b ls :
  contains b "--" = false →
  ∀ left gap shown, left ≤ k →
    existsb (contains b) (grep_after k a left gap shown ls) = true ↔
    ∃ j lb, ls !! j = Some lb ∧ contains b lb = true ∧
      (j < left ∨ ∃ i la, ls !! i = Some la ∧ contains a la = true ∧ i ≤ j ≤ i + k).
Proof.
  intros Hsep. induction ls as [|l ls IH]; intros left gap shown Hle.
  { cbn. split; [done|]. by intros (j & lb & ? & _). }
  cbn [grep_after]. destruct (contains a l) eqn:Ea.
  - rewrite existsb_app. cbn [existsb].
    assert (existsb (contains b) (if gap && shown then ["--"] else []) = false) as ->.
    { destruct (gap && shown); cbn [existsb]; by rewrite ?Hsep. }
    cbn [orb]. rewrite orb_true_iff, (IH k false true) by lia. split.
    + intros [Hb|(j & lb & Hj & Hb & Hn)].
      * exists 0, l. split_and!; try done. right. exists 0, l. split_and!; try done. lia.
      * exists (S j), lb. split_and!; try done. right.
        destruct Hn as [Hn|(i & la & Hi & Ha & Hn)].
        -- exists 0, l. split_and!; try done; lia.
        -- exists (S i), la. split_and!; try done; lia.
    + intros (j & lb & Hj & Hb & Hn). destruct j as [|j].
      * left. cbn in Hj. by injection Hj as ->.
      * right. exists j, lb. cbn in Hj. split_and!; try done.
        destruct Hn as [Hn|(i & la & Hi & Ha & Hn)]; [left; lia|].
        destruct i as [|i]; [left; lia|]. right. exists i, la. cbn in Hi.
        split_and!; try done; lia.
  - destruct left as [|left].
    + rewrite (IH 0 true shown) by lia. split.
      * intros (j & lb & Hj & Hb & [Hn|(i & la & Hi & Ha & Hn)]); [lia|].
        exists (S j), lb. split_and!; try done. right. exists (S i), la.
        split_and!; try done; lia.
      * intros (j & lb & Hj & Hb & [Hn|(i & la & Hi & Ha & Hn)]); [lia|].
        destruct i as [|i]; [cbn in Hi; injection Hi as ->; congruence|].
        destruct j as [|j]; [lia|]. exists j, lb. cbn in Hi, Hj.
        split_and!; try done. right. exists i, la. split_and!; try done; lia.
    + cbn [existsb]. rewrite orb_true_iff, (IH left false shown) by lia. split.
      * intros [Hb|(j & lb & Hj & Hb & Hn)].
        -- exists 0, l. split_and!; try done. left. lia.
        -- exists (S j), lb. split_and!; try done.
           destruct Hn as [Hn|(i & la & Hi & Ha & Hn)]; [left; lia|].
           right. exists (S i), la. split_and!; try done; lia.
      * intros (j & lb & Hj & Hb & Hn). destruct j as [|j].
        -- left. cbn in Hj. by injection Hj as ->.
        -- right. exists j, lb. cbn in Hj. split_and!; try done.
           destruct Hn as [Hn|(i & la & Hi & Ha & Hn)]; [left; lia|].
           destruct i as [|i]; [cbn in Hi; injection Hi as ->; congruence|].
           right. exists i, la. cbn in Hi. split_and!; try done; lia.
Qed.

(** The answer of [grep -A 5 NAME | grep -q RUNNING] in terms of the lines
    of the listing. *)
Lemma running_in_near listing :
  running_in listing = true ↔
  near 5 Lima.name_entry Lima.running_entry (lines listing).
Proof.
  unfold running_in. rewrite lines_unlines by apply grep_after_plain, lines_plain.
  assert (∀ ls, existsb (hit [Lima.running_entry]) ls
                = existsb (contains Lima.running_entry) ls) as ->.
  { intros ls. induction ls as [|l ls IH]; [done|]. cbn [existsb]. rewrite IH.
    unfold hit. cbn [existsb]. by rewrite orb_false_r. }
  rewrite grep_after_has; [|by vm_compute|lia]. unfold near. split.
  - intros (j & lb & Hj & Hb & [Hn|(i & la & Hi & Ha & Hn)]); [lia|].
    by exists i, j, la, lb.
  - intros (i & j & la & lb & Hi & Ha & Hj & Hb & Hn).
    exists j, lb. split_and!; try done. right. by exists i, la.
Qed.

End LineFacts.

(** ** Runs, exactly *)

(** Find an element in a list that is written out. *)
Ltac pick := repeat first [apply list_elem_of_here | apply list_elem_of_further].


Section RunFacts.
Import Text Sh Pulumi Exec Obs.
Context {World : Type} (H : Host World).

Lemma procs_app a b : procs (a ++ b) = procs a ++ procs b.
Proof. induction a as [|[] a IH]; cbn; by rewrite ?IH. Qed.

Lemma printed_app a b : printed (a ++ b) = printed a ++ printed b.
Proof. induction a as [|[] a IH]; cbn; by rewrite ?IH. Qed.

Lemma spawned_procs evs : spawned evs = argv <$> procs evs.
Proof. induction evs as [|[] evs IH]; cbn; by rewrite ?IH. Qed.

(** [cat <<'EOF' > path]: the text of the here-document goes to the
    file, and the command fails exactly when the file cannot be written. *)
Lemma heredoc_to_file (path content : string) e w :
  let ok := (write H w path content).2 in
  let r := run H (OneLine (Simple [W (Lit "cat"); R (Here "EOF" content);
                                   R (OutFile (Lit path))])) e w in
  trace r = [Wrote path content ok] ∧ code r = (if ok then 0 else 1).
Proof.
  unfold run, code, trace. cbn. by destruct (write H w path content).2.
Qed.



(** The loop over the nodes: two queries per turn, a sleep of five
    seconds after every turn that does not find all nodes Ready. *)
Lemma nodes_for_each_exact input vs st :
  let p := probe_nodes (env st) input in
  let f := node_failures H p (length vs) (world st) in
  ∃ st' evs,
    for_each (exec_script H Docker.nodes_body input) "i" vs st = (Go, st', evs)
    ∧ env st' = env st
    ∧ sleeps evs = repeat 5 f
    ∧ iterations evs = length vs `min` S f
    ∧ procs evs = repeat p (2 * iterations evs).
Proof.
  revert st. induction vs as [|v vs IH]; intros st p f.
  { exists st, []. by split_and!. }
  cbn [for_each]. rewrite nodes_body_run. cbn [set_var env world].
  fold p. subst f. cbn [length node_failures].
  destruct (nodes_ready _ _).
  - eexists _, _. split; [done|]. split_and!; try done. cbn. lia.
  - match goal with |- context [for_each _ _ _ ?s] =>
      destruct (IH s) as (st' & evs & -> & He & Hs & Hi & Hp) end.
    cbn [env world] in *. fold p in Hs, Hi, Hp.
    eexists _, _. split; [done|]. cbn [sleeps iterations procs app].
    split_and!; [done|by rewrite Hs|by rewrite Hi|].
    rewrite Hp.
    by replace (2 * S (iterations evs)) with (S (S (2 * iterations evs))) by lia.
Qed.

Lemma nodes_loop_exact input st :
  let p := probe_nodes (env st) input in
  let f := node_failures H p 60 (world st) in
  ∃ st' evs,
    exec H Docker.nodes_loop input st = (Go, st', evs)
    ∧ env st' = env st
    ∧ sleeps evs = repeat 5 f
    ∧ iterations evs = 60 `min` S f
    ∧ procs evs = repeat p (2 * iterations evs).
Proof.
  unfold Docker.nodes_loop. rewrite (exec_for_seq H _ _ _ 1 60) by done.
  match goal with |- context [for_each _ _ ?l ?s] =>
    destruct (nodes_for_each_exact input l s) as (st' & evs & -> & He & Hs);
    assert (length l = 60) as Hl by (by vm_compute)
  end.
  rewrite Hl in Hs. exists st', evs. by destruct st.
Qed.


(** The wait step: the queries of the loop, [kubectl wait], and the
    listing of the nodes, all with the kubeconfig the script exports. *)
Lemma wait_run_exact h e w :
  let e' := <["KUBECONFIG" := Docker.kubeconfigPath h]> e in
  let p := probe_nodes e' "" in
  let f := node_failures H p 60 w in
  let n := 60 `min` S f in
  let pw := {| argv := ["kubectl"; "wait"; "--for=condition=Ready"; "pods"; "--all"; "-n";
                        "kube-system"; "--timeout=300s"]; penv := e'; stdin := "" |} in
  let pn := {| argv := ["kubectl"; "get"; "nodes"; "-o"; "wide"]; penv := e'; stdin := "" |} in
  let r := run H (Docker.waitForK8s_create h) e w in
  procs (trace r) = repeat p (2 * n) ++ [pw; pn]
  ∧ sleeps (trace r) = repeat 5 f
  ∧ iterations (trace r) = n.
Proof.
  intros e' p f n pw pn r. subst r.
  unfold run, trace, code, Docker.waitForK8s_create.
  rewrite (exec_block_split H 4). cbn [take drop]. run_head.
  cbn [block]. rewrite exec_script_run.
  match goal with |- context [exec H Docker.nodes_loop ?i ?s] =>
    destruct (nodes_loop_exact i s) as (st' & evs & -> & He & Hs & Hi & Hp) end.
  cbn [and_then]. destruct st' as [w' e'' vs' s']. cbn in He. subst e''.
  assert (sleeps evs = repeat 5 f) as Hs' by exact Hs.
  assert (iterations evs = n) as Hi' by exact Hi.
  assert (procs evs = repeat p (2 * iterations evs)) as Hp' by exact Hp.
  clear Hs Hi Hp. clearbody n f.
  cbn.
  match goal with |- context [exit_of H ?w ?p =? 0] => destruct (exit_of H w p =? 0) end;
    cbn; rewrite procs_app, sleeps_app, iterations_app; cbn;
    rewrite Hs', Hp', Hi', ?app_nil_r; (split_and!; [done|done|lia]).
Qed.

(** The check whether the VM runs: one query of the registry, and the
    status [grep] gives. *)
Lemma vm_running_run input st :
  let p := limactl_list (env st) input in
  exec H Lima.vm_running input st =
    (Go,
     {| world := after H (world st) p; env := env st; vars := vars st;
        status := if running_in (output_of H (world st) p) then 0 else 1 |},
     [Spawn p (exit_of H (world st) p)]).
Proof.
  destruct st as [w e vs s]. cbn. rewrite !append_nil_r.
  fold (limactl_list e input).
  change (existsb _ (lines (unlines _)))
    with (running_in (output_of H w (limactl_list e input))).
  by destruct (running_in _).
Qed.




End RunFacts.
(** ** The claims *)

Section Claims.
Import Text Sh Pulumi Exec Engine Obs.
Context {World : Type} (H : Host World).






(** C4.  In a run of the step executor a create action is executed only
    after every step it depends on has succeeded, and after a create action
    that failed no create action is executed.  In particular, when the
    directory step fails, no other create action runs, in [main.go] and in
    the VM program. *)
Theorem create_after_dependencies steps h w :
  let reps := (up H steps [] w).2 in
  (∀ i s r, steps !! i = Some s → reps !! i = Some r → ran r = true →
     ∀ d, d ∈ DependsOn (resource s) →
       ∃ j r', j < i ∧ reps !! j = Some r' ∧ step r' = d ∧ succeeded r' = true)
  ∧ (∀ i j ri rj, reps !! i = Some ri → reps !! j = Some rj → i < j →
       ran ri = true → succeeded ri = false → ran rj = false)
  ∧ (code (run H (Docker.createTalosDir_create h) ∅ w) ≠ 0 →
     ran <$> (up H (Docker.steps h) [] w).2 = [true; false; false; false; false; false])
  ∧ (code (run H (Lima.createDirs_create h) ∅ w) ≠ 0 →
     ran <$> (up H (Lima.steps h) [] w).2
     = [true; false; false; false; false; false; false; false]).
Proof.
  intros reps. split_and!.
  - intros i s r Hs Hr Hran d Hd.
    destruct (up_deps H steps [] w i s r Hs Hr Hran d Hd) as [Hin|?]; [|done].
    by apply elem_of_nil in Hin.
  - apply up_fail_fast.
  - apply docker_up_first_fails.
  - apply lima_up_first_fails.
Qed.


(** C7, as amended.  On every host and in both programs the hardening
    step, read for a plain home directory, runs the same five commands:
    four [kubectl label ... --overwrite] (two labels on each of the
    namespaces kube-system and default), then [kubectl apply -f -] fed a
    fixed manifest of two NetworkPolicy objects. *)
Theorem hardening_payload h e w :
  (plain h = true →
   fed (trace (run H (Docker.applySecurityHardening_create h) e w)) = payload
   ∧ fed (trace (run H (Lima.applySecurityHardening_create h) e w)) = payload)
  ∧ length (filter (λ c, is_prefix ["kubectl"; "label"] c.1 = true) payload) = 4
  ∧ Forall (λ c, is_prefix ["kubectl"; "label"] c.1 = true → last c.1 = Some "--overwrite")
      payload
  ∧ last payload = Some (["kubectl"; "apply"; "-f"; "-"], Docker.netpol)
  ∧ kinds Docker.netpol = ["kind: NetworkPolicy"; "kind: NetworkPolicy"]
  ∧ documents Docker.netpol = 2.
Proof.
  split_and!;
    [intros _; split;
       [apply (proj1 (docker_hardening_run H h e w))
       |apply (proj1 (lima_hardening_run H h e w))]
    |done
    |repeat (apply Forall_cons; split; [by cbn|]); by apply Forall_nil|done..].
Qed.

(** C8, as amended.  The delete scripts of the cluster step are the same
    text in both programs.  The create scripts have the same commands (probe
    of the cluster talos-local, creation with one control plane, two workers
    and a wait of ten minutes) and differ in one comment.  The VM program
    adds DOCKER_HOST to the environment, and the step depends on another
    one. *)
Theorem cluster_step_of_both_programs h e w :
  Lima.createCluster_Delete = Docker.createCluster_Delete
  ∧ code_of Lima.createCluster_create = code_of Docker.createCluster_create
  ∧ (∃ pre post,
       Docker.createCluster_Create = pre +:+ " for HA testing" +:+ post
       ∧ Lima.createCluster_Create = pre +:+ post)
  ∧ run H Lima.createCluster_create e w = run H Docker.createCluster_create e w
  ∧ (exit_of H w (cluster_show e) ≠ 0 →
     spawned (trace (run H Docker.createCluster_create e w))
     = [["/opt/homebrew/bin/talosctl"; "cluster"; "show"; "--name"; "talos-local"];
        cluster_create_argv])
  ∧ Environment (args (Lima.createCluster h))
    = <["DOCKER_HOST" := "unix://" +:+ Lima.dockerSocket h]>
        (Environment (args (Docker.createCluster h)))
  ∧ Environment (args (Docker.createCluster h)) !! "DOCKER_HOST" = None
  ∧ DependsOn (Docker.createCluster h) = ["create-talos-dir"]
  ∧ DependsOn (Lima.createCluster h) = ["lima-vm"].
Proof.
  split_and!; [done|done| |by apply run_same_code| | |done..].
  - exists (String.substring 0 332 Docker.createCluster_Create),
           (String.substring 347 221 Docker.createCluster_Create).
    split; by vm_compute.
  - intros E. by destruct (create_cluster_run H e w) as (_ & _ & _ & ->).
  - cbn. unfold Lima.toolEnvironment. cbn. rewrite append_nil_r.
    by rewrite <- !insert_empty, insert_insert_ne.
Qed.

(** C9.  A turn of the loop over the nodes ends the loop exactly when the
    number of Ready lines of the first listing equals the number of lines of
    the second and that number is not zero; with an empty listing it
    never does.  The body of the loop is the same in both programs. *)
Theorem nodes_ready_condition input st :
  let p := probe_nodes (env st) input in
  let ready := ready_lines (output_of H (world st) p) in
  let total := newlines (output_of H (after H (world st) p) p) in
  let turn := exec_script H Docker.nodes_body input st in
  (turn.1.1 = Break ↔ ready = total ∧ 0 < total)
  ∧ (output_of H (after H (world st) p) p = "" → turn.1.1 = Go)
  ∧ (output_of H (world st) p = "" → turn.1.1 = Go)
  ∧ Lima.nodes_body = Docker.nodes_body.
Proof.
  intros p ready total turn. unfold turn. rewrite nodes_body_run.
  fold p ready total. unfold nodes_ready.
  split_and!; [| | |done].
  - destruct (Nat.eqb_spec ready total), (Nat.ltb_spec 0 total); cbn; split;
      try done; intros []; try done; lia.
  - intros E. unfold total. rewrite E. cbn. by rewrite andb_false_r.
  - intros E. unfold ready. rewrite E.
    destruct (Nat.eqb_spec (ready_lines "") total) as [E'|]; [|done].
    rewrite <- E'. done.
Qed.


End Claims.

Section Graph.
Import Text Sh Pulumi Exec Engine Obs.

(** C6, as amended.  In [main.go] every step depends on exactly the step
    registered before it, and no two steps are independent.  In the VM
    program the first two steps declare no dependency, the VM step depends
    on both, and from there on every step depends on the one before it; the
    first two steps are the only independent pair. *)
Theorem dependency_graph h :
  strict_chain (Docker.steps h) = true
  ∧ parallel (Docker.steps h) = []
  ∧ DependsOn (Lima.createDirs h) = []
  ∧ DependsOn Lima.createLimaConfig = []
  ∧ DependsOn (Lima.limaVm h) = ["create-dirs"; "create-lima-config"]
  ∧ chain_after ["create-dirs"; "create-lima-config"] (drop 2 (resource <$> Lima.steps h)) = true
  ∧ parallel (Lima.steps h) = [("create-dirs", "create-lima-config")].
Proof. by split_and!. Qed.

End Graph.
(** ** The claims on concrete hosts *)

Section Examples.
Import Text Sh Pulumi Exec Engine Obs.







(** C4 on hosts where all is well and where [mkdir] fails. *)
Lemma create_after_dependencies_witness :
  (∃ j r', j < 1 ∧ (up all_ok (take 2 (Docker.steps home)) [] tt).2 !! j = Some r'
           ∧ step r' = "create-talos-dir" ∧ succeeded r' = true)
  ∧ ran <$> (up (failing "mkdir") (Docker.steps home) [] tt).2
    = [true; false; false; false; false; false]
  ∧ ran <$> (up (failing "mkdir") (Lima.steps home) [] tt).2
    = [true; false; false; false; false; false; false; false].
Proof.
  split_and!.
  - destruct (create_after_dependencies all_ok (take 2 (Docker.steps home)) home tt)
      as (A & _).
    destruct ((up all_ok (take 2 (Docker.steps home)) [] tt).2 !! 1) as [r|] eqn:E;
      [|by vm_compute in E].
    eapply (A 1 _ r); [reflexivity|exact E| |by apply list_elem_of_In; left].
    vm_compute in E. by injection E as <-.
  - destruct (create_after_dependencies (failing "mkdir") [] home tt) as (_ & _ & A & _).
    apply A. by vm_compute.
  - destruct (create_after_dependencies (failing "mkdir") [] home tt) as (_ & _ & _ & A).
    apply A. by vm_compute.
Defined.


(** C6 fails for the VM program. *)
Lemma lima_not_a_chain :
  strict_chain (Lima.steps home) = false
  ∧ parallel (Lima.steps home) = [("create-dirs", "create-lima-config")].
Proof. by vm_compute. Qed.

(** C7 on a host where every program succeeds. *)
Lemma hardening_payload_witness :
  fed (trace (run all_ok (Docker.applySecurityHardening_create home) ∅ tt)) = payload
  ∧ fed (trace (run all_ok (Lima.applySecurityHardening_create home) ∅ tt)) = payload.
Proof.
  destruct (hardening_payload all_ok home ∅ tt) as (A & _).
  apply A. by vm_compute.
Defined.

(** C7 fails on the number of labels. *)
Lemma hardening_has_four_labels :
  let r := run all_ok (Docker.applySecurityHardening_create home)
             (Environment (args (Docker.applySecurityHardening home))) tt in
  calls ["kubectl"; "label"] (trace r) = 4 ∧ calls ["kubectl"; "label"] (trace r) ≠ 2.
Proof.
  cbv zeta. split; [by vm_compute|]. intros E. vm_compute in E. discriminate E.
Qed.

(** C8 on a host where the cluster is not there yet. *)
Lemma cluster_step_of_both_programs_witness :
  spawned (trace (run all_fail Docker.createCluster_create ∅ tt))
  = [["/opt/homebrew/bin/talosctl"; "cluster"; "show"; "--name"; "talos-local"];
     cluster_create_argv].
Proof.
  destruct (cluster_step_of_both_programs all_fail home ∅ tt) as (_ & _ & _ & _ & A & _).
  apply A. by vm_compute.
Defined.

(** C8 fails on the create scripts. *)
Lemma create_texts_differ :
  String.eqb Docker.createCluster_Create Lima.createCluster_Create = false
  ∧ Docker.createCluster_Create ≠ Lima.createCluster_Create.
Proof.
  assert (String.eqb Docker.createCluster_Create Lima.createCluster_Create = false)
    as E by (by vm_compute).
  split; [done|]. by apply String.eqb_neq.
Qed.

(** C9 on a cluster of three Ready nodes, and on one that does not
    answer. *)
Lemma nodes_ready_condition_witness :
  (exec_script cluster_up Docker.nodes_body "" fresh).1.1 = Break
  ∧ (exec_script all_fail Docker.nodes_body "" fresh).1.1 = Go.
Proof.
  split.
  - apply (nodes_ready_condition cluster_up "" fresh). split; [by vm_compute|].
    vm_compute. repeat constructor.
  - apply (nodes_ready_condition all_fail "" fresh). by vm_compute.
Defined.


End Examples.

(** * Further properties of the scripts *)

(** ** What the steps do on every host *)

Section Steps.
Import Text Sh Pulumi Exec Obs.
Context {World : Type} (H : Host World).

(** X1.  The cluster step never fails.  When [talosctl cluster show]
    fails, the script prints that it creates the cluster, runs
    [talosctl cluster create] once, prints that the cluster was created
    successfully and exits with status 0, whatever status
    [talosctl cluster create] returned.  The script is the same in both
    programs. *)
Theorem cluster_create_status_ignored e w :
  let show := cluster_show e in
  let w1 := after H w show in
  let create := {| argv := cluster_create_argv; penv := e; stdin := "" |} in
  let r := run H Docker.createCluster_create e w in
  trace r =
    (if exit_of H w show =? 0 then
       [Spawn show (exit_of H w show);
        Out ("Talos cluster 'talos-local' already exists" +:+ nl)]
     else
       [Spawn show (exit_of H w show);
        Out ("Creating Talos cluster 'talos-local'..." +:+ nl);
        Spawn create (exit_of H w1 create);
        Out (output_of H w1 create);
        Out ("Talos cluster 'talos-local' created successfully" +:+ nl)])
  ∧ code r = 0
  ∧ run H Lima.createCluster_create e w = r.
Proof.
  intros show w1 create r. subst r.
  split_and!; [| |by apply run_same_code].
  - unfold run, trace, Docker.createCluster_create. cbn.
    fold (cluster_show e). fold show.
    by destruct (exit_of H w show =? 0).
  - apply create_cluster_run.
Qed.


(** X3.  The hardening step, read for a plain home directory, never
    fails: it exits with status 0 on every host, whatever its five
    [kubectl] commands return.  Each of them runs with [KUBECONFIG] set to
    the kubeconfig of the program, whatever environment the step was
    given, and the step writes no file. *)
Theorem hardening_never_fails h e w :
  plain h = true →
  let r := run H (Docker.applySecurityHardening_create h) e w in
  let r' := run H (Lima.applySecurityHardening_create h) e w in
  code r = 0 ∧ code r' = 0
  ∧ spawned (trace r) = fst <$> payload
  ∧ spawned (trace r') = fst <$> payload
  ∧ seen "KUBECONFIG" (trace r) = repeat (Some (Docker.kubeconfigPath h)) 5
  ∧ seen "KUBECONFIG" (trace r') = repeat (Some (Lima.kubeconfigPath h)) 5
  ∧ written (trace r) = [] ∧ written (trace r') = []
  ∧ last (printed (trace r'))  = Some ("Security hardening applied" +:+ nl).
Proof.
  intros _.
  unfold run, trace, code, seen, Docker.applySecurityHardening_create,
    Lima.applySecurityHardening_create. cbn.
  rewrite !lookup_insert_eq. by split_and!.
Qed.

(** X4.  The verification step, read for a plain home directory, prints
    its report and exits with status 0 on every host.  It runs [kubectl get nodes -o wide] and, in [main.go]
    only, [kubectl get pods -n kube-system], with [KUBECONFIG] set to the
    kubeconfig of the program; their exit statuses are not looked at.  The
    report names the kubeconfig and the Talos configuration, and in the VM
    program the VM. *)
Theorem verify_report h e w :
  plain h = true →
  let r := run H (Docker.verifyCluster_create h) e w in
  let r' := run H (Lima.verifyCluster_create h) e w in
  code r = 0 ∧ code r' = 0
  ∧ spawned (trace r) = [["kubectl"; "get"; "nodes"; "-o"; "wide"];
                         ["kubectl"; "get"; "pods"; "-n"; "kube-system"]]
  ∧ spawned (trace r') = [["kubectl"; "get"; "nodes"; "-o"; "wide"]]
  ∧ seen "KUBECONFIG" (trace r) = repeat (Some (Docker.kubeconfigPath h)) 2
  ∧ seen "KUBECONFIG" (trace r') = [Some (Lima.kubeconfigPath h)]
  ∧ ("Kubeconfig: " +:+ Docker.kubeconfigPath h +:+ nl) ∈ printed (trace r)
  ∧ ("Talosconfig: " +:+ Docker.talosConfigPath h +:+ nl) ∈ printed (trace r)
  ∧ ("  talosctl --talosconfig " +:+ Docker.talosConfigPath h +:+ " dashboard" +:+ nl)
    ∈ printed (trace r)
  ∧ ("Lima VM: talos-docker" +:+ nl) ∈ printed (trace r').
Proof.
  intros _.
  unfold run, trace, code, seen, Docker.verifyCluster_create,
    Lima.verifyCluster_create. cbn.
  rewrite !lookup_insert_eq.
  split_and!; try done; rewrite ?append_nil_r, ?append_assoc; cbn; pick.
Qed.

(** X5.  The configuration step does one thing: it writes the file
    [./talos-docker.yaml].  The file holds the configuration of the Go
    program followed by one empty line, with [$LIMA_CIDATA_USER] and
    [{{.Dir}}] as they are written (the here-document is quoted); no line of
    it is [EOF], where the here-document would stop short.  The step fails
    exactly when the file cannot be written.  The delete action removes the
    same path. *)
Theorem lima_config_written e w :
  let content := Lima.limaConfig +:+ nl in
  let ok := (write H w "./talos-docker.yaml" content).2 in
  let r := run H Lima.createLimaConfig_create e w in
  trace r = [Wrote "./talos-docker.yaml" content ok]
  ∧ code r = (if ok then 0 else 1)
  ∧ lines content = lines Lima.limaConfig ++ [""]
  ∧ ("EOF" ∉ lines content)
  ∧ contains "usermod -aG docker $LIMA_CIDATA_USER" content = true
  ∧ contains "{{.Dir}}/sock/docker.sock" content = true
  ∧ procs (trace (run H Lima.createLimaConfig_delete e w))
    = [rm_f "./talos-docker.yaml" e].
Proof.
  intros content ok r. subst r.
  destruct (heredoc_to_file H "./talos-docker.yaml" content e w) as [A B].
  split_and!; [exact A|exact B|by vm_compute| |by vm_compute|by vm_compute|done].
  intros Hin. apply list_elem_of_In in Hin. vm_compute in Hin.
  repeat (destruct Hin as [Hin|Hin]; [discriminate Hin|]). done.
Qed.

(** X6.  The delete action of the VM step runs [limactl stop] and then
    [limactl delete --force] on every host: the second runs also when the
    first has failed.  The delete action of the cluster step runs
    [talosctl cluster destroy] once.  Both end with the line that says the
    resource is gone, whatever the commands returned. *)
Theorem teardown_commands e w :
  let stop := limactl e ["stop"; "talos-docker"] in
  let del := limactl e ["delete"; "talos-docker"; "--force"] in
  let destroy := {| argv := ["/opt/homebrew/bin/talosctl"; "cluster"; "destroy";
                             "--name"; "talos-local"]; penv := e; stdin := "" |} in
  procs (trace (run H Lima.limaVm_delete e w)) = [stop; del]
  ∧ last (printed (trace (run H Lima.limaVm_delete e w)))
    = Some ("Lima VM talos-docker deleted" +:+ nl)
  ∧ procs (trace (run H Docker.createCluster_delete e w)) = [destroy]
  ∧ last (printed (trace (run H Docker.createCluster_delete e w)))
    = Some ("Talos cluster 'talos-local' destroyed" +:+ nl)
  ∧ Lima.createCluster_delete = Docker.createCluster_delete.
Proof.
  intros stop del destroy.
  unfold run, trace, Lima.limaVm_delete, Docker.createCluster_delete. cbn.
  fold (limactl e ["stop"; "talos-docker"]) (limactl e ["delete"; "talos-docker"; "--force"]).
  fold stop del destroy.
  repeat (match goal with |- context [exit_of H ?w ?p =? 0] =>
            destruct (exit_of H w p =? 0) end; cbn); by split_and!.
Qed.


(** X8.  The check whether the VM runs, [limactl list | grep -A 5 NAME |
    grep -q RUNNING], succeeds exactly when the listing has a line with
    the name of the VM and, on that line or on one of the five lines after
    it, the status Running: the status may be the one of another VM. *)
Theorem vm_running_window input st :
  let p := limactl_list (env st) input in
  status (exec H Lima.vm_running input st).1.2 = 0 ↔
  near 5 Lima.name_entry Lima.running_entry (lines (output_of H (world st) p)).
Proof.
  intros p. rewrite vm_running_run, <- running_in_near. fold p. cbn.
  by destruct (running_in _).
Qed.


(** X10.  The wait step, read for a plain home directory, sleeps five
    seconds once for every turn of its
    loop that does not find all nodes Ready, and at most sixty times (300
    seconds); every turn makes two queries of the nodes.  After the loop it
    runs [kubectl wait] and [kubectl get nodes -o wide], once each, and it
    prints that Kubernetes is ready on every host, also when the loop ran
    out.  Every program it starts has [KUBECONFIG] set to the kubeconfig of
    the program, whatever environment the step was given.  The step runs
    alike in both programs. *)
Theorem node_wait_exact h e w :
  plain h = true →
  let r := run H (Docker.waitForK8s_create h) e w in
  let e' := <["KUBECONFIG" := Docker.kubeconfigPath h]> e in
  let f := node_failures H (probe_nodes e' "") 60 w in
  sleeps (trace r) = repeat 5 f
  ∧ f ≤ 60
  ∧ iterations (trace r) = 60 `min` S f
  ∧ spawned (trace r) =
      repeat probe_argv (2 * (60 `min` S f))
      ++ [["kubectl"; "wait"; "--for=condition=Ready"; "pods"; "--all"; "-n";
           "kube-system"; "--timeout=300s"];
          ["kubectl"; "get"; "nodes"; "-o"; "wide"]]
  ∧ Forall (λ v, v = Some (Docker.kubeconfigPath h)) (seen "KUBECONFIG" (trace r))
  ∧ ("Kubernetes is ready" +:+ nl) ∈ printed (trace r)
  ∧ run H (Lima.waitForK8s_create h) e w = r.
Proof.
  intros _ r e' f. destruct (wait_run_exact H h e w) as (Hp & Hs & Hi).
  fold r e' f in Hp, Hs, Hi.
  assert (("Kubernetes is ready" +:+ nl) ∈ printed (trace r)) as Hsays.
  { destruct (wait_run H h e w) as (loop & pw & cw & ow & pn & o & E & _).
    unfold r. rewrite E. cbn [printed]. rewrite printed_app. apply list_elem_of_further, elem_of_app.
    right. cbn [printed]. pick. }
  assert (∀ p n (w' : World), node_failures H p n w' ≤ n) as Hle.
  { intros p n. induction n as [|n IH]; intros w'; cbn [node_failures]; [lia|].
    destruct (nodes_ready _ _); [lia|].
    specialize (IH (after H (after H w' p) p)). cbn zeta. lia. }
  pose proof (Hle (probe_nodes e' "") 60 w) as Hf. fold f in Hf.
  split_and!; [done|done|done| | |exact Hsays|by apply run_same_code, same_wait].
  - rewrite spawned_procs, Hp, fmap_app. f_equal.
    generalize (2 * (60 `min` S f)). intros m.
    induction m as [|m IH]; [done|]. cbn [repeat]. by rewrite fmap_cons, IH.
  - unfold seen. rewrite Hp, fmap_app. apply Forall_app. split.
    + generalize (2 * (60 `min` S f)). intros m.
      induction m as [|m IH]; [constructor|]. cbn [repeat]. rewrite fmap_cons.
      constructor; [|done]. cbn. unfold e'. by rewrite lookup_insert_eq.
    + cbn. unfold e'. rewrite !lookup_insert_eq. by repeat constructor.
Qed.

(** X11.  A turn of the loop over the nodes leaves in [READY] the number
    of lines with [ Ready ] of its first listing, or two lines of [0] when
    there is none ([grep -c] prints 0 and fails, and [echo] adds its own 0),
    and in [TOTAL] the number of lines of its second listing as a plain
    numeral, however [wc] pads its count.  It prints one line: that all
    nodes are ready, or the two counts, and sleeps only after the second. *)
Theorem node_counts input st :
  let p := probe_nodes (env st) input in
  let ready := ready_lines (output_of H (world st) p) in
  let total := newlines (output_of H (after H (world st) p) p) in
  let READY := if ready =? 0 then "0" +:+ nl +:+ "0" else itoa ready in
  let turn := exec_script H Docker.nodes_body input st in
  get_var turn.1.2 "READY" = READY
  ∧ get_var turn.1.2 "TOTAL" = itoa total
  ∧ printed turn.2 =
      [if nodes_ready ready total
       then "All " +:+ itoa total +:+ " nodes are ready" +:+ nl
       else "Waiting for nodes... (" +:+ READY +:+ "/" +:+ itoa total +:+ " ready)" +:+ nl]
  ∧ sleeps turn.2 = (if nodes_ready ready total then [] else [5])
  ∧ Lima.nodes_body = Docker.nodes_body.
Proof.
  intros p ready total READY turn. subst turn. rewrite nodes_body_run.
  fold p ready total. unfold READY, ready_text.
  by destruct (nodes_ready ready total).
Qed.

(** X12.  For a plain home directory the kubeconfig has one path in the
    whole program: the path
    the program exports as [kubeconfigPath] is the file the export step has
    [talosctl kubeconfig] write and [kubectl] check, the file its delete
    action removes, and the value of [KUBECONFIG] in the environment of the
    wait, hardening and verification steps.  The two programs use the same
    path. *)
Theorem kubeconfig_one_path h e w :
  plain h = true →
  let path := Docker.kubeconfigPath h in
  Lima.kubeconfigPath h = path
  ∧ ("kubeconfigPath", path) ∈ Docker.exports h
  ∧ ("kubeconfigPath", path) ∈ Lima.exports h
  ∧ Forall (λ p, path ∈ argv p)
      (procs (trace (run H (Docker.exportKubeconfig_create h) e w)))
  ∧ Forall (λ p, path ∈ argv p)
      (procs (trace (run H (Lima.exportKubeconfig_create h) e w)))
  ∧ procs (trace (run H (Docker.exportKubeconfig_delete h) e w)) = [rm_f path e]
  ∧ procs (trace (run H (Lima.exportKubeconfig_delete h) e w)) = [rm_f path e]
  ∧ Forall (λ r, Environment (args r) !! "KUBECONFIG" = Some path)
      [Docker.waitForK8s h; Docker.applySecurityHardening h; Docker.verifyCluster h;
       Lima.waitForK8s h; Lima.applySecurityHardening h; Lima.verifyCluster h].
Proof.
  intros _ path. split_and!; [done|pick|pick| | |done|done|].
  - unfold run, trace, Docker.exportKubeconfig_create. cbn.
    match goal with |- context [exit_of H ?w ?p =? 0] => destruct (exit_of H w p =? 0) end;
      cbn; repeat constructor; pick.
  - unfold run, trace, Lima.exportKubeconfig_create. cbn.
    match goal with |- context [exit_of H ?w ?p =? 0] => destruct (exit_of H w p =? 0) end;
      cbn; repeat constructor; pick.
  - repeat constructor; cbn; apply lookup_singleton_eq.
Qed.


(** X14.  For a home directory that is plain and a clean absolute path,
    the first step of [main.go] runs [mkdir -p] on the directory [.talos]
    in it and exits with the status of [mkdir].  The Talos configuration is
    the file [config] in that directory; its path is the value of
    [TALOSCONFIG] in the environment of the cluster and export steps of
    both programs and the path exported as [talosconfigPath]. *)
Theorem talos_dir_holds_config h e w :
  plain h = true → Go.tidy h = true →
  let mkdir := {| argv := ["mkdir"; "-p"; h +:+ "/.talos"]; penv := e; stdin := "" |} in
  let r := run H (Docker.createTalosDir_create h) e w in
  procs (trace r) = [mkdir]
  ∧ code r = exit_of H w mkdir
  ∧ Docker.talosDir h = h +:+ "/.talos"
  ∧ Docker.talosConfigPath h = h +:+ "/.talos/config"
  ∧ Lima.talosConfigPath h = Docker.talosConfigPath h
  ∧ Forall (λ r, Environment (args r) !! "TALOSCONFIG" = Some (h +:+ "/.talos/config"))
      [Docker.createCluster h; Docker.exportKubeconfig h;
       Lima.createCluster h; Lima.exportKubeconfig h]
  ∧ ("talosconfigPath", h +:+ "/.talos/config") ∈ Docker.exports h
  ∧ ("talosconfigPath", h +:+ "/.talos/config") ∈ Lima.exports h.
Proof.
  intros _ Ht mkdir r.
  destruct (Join_tidy h ".talos" Ht) as [Hd Ht']; [done..|].
  change (h +:+ "/" +:+ ".talos") with (h +:+ "/.talos") in Hd, Ht'.
  destruct (Join_tidy _ "config" Ht') as [Hc _]; [done..|].
  assert (Docker.talosDir h = h +:+ "/.talos") as Ed by exact Hd.
  assert (Docker.talosConfigPath h = h +:+ "/.talos/config") as Ec.
  { unfold Docker.talosConfigPath. rewrite Ed, Hc. by rewrite append_assoc. }
  assert (Lima.talosConfigPath h = Docker.talosConfigPath h) as El by done.
  split_and!; [|by subst r mkdir; rewrite <- Ed|done|done|done| | |].
  - subst r mkdir. by rewrite <- Ed.
  - rewrite <- Ec. repeat constructor; cbn; unfold Lima.toolEnvironment;
      first [apply lookup_singleton_eq | apply lookup_insert_eq].
  - rewrite <- Ec. pick.
  - rewrite <- Ec. pick.
Qed.

End Steps.

(** ** The further properties on concrete hosts *)

Section MoreExamples.
Import Text Sh Pulumi Exec Engine Obs.

(** X3 on a host where [kubectl] fails. *)
Lemma hardening_never_fails_witness :
  code (run (failing "kubectl") (Docker.applySecurityHardening_create home) ∅ tt) = 0
  ∧ code (run (failing "kubectl") (Lima.applySecurityHardening_create home) ∅ tt) = 0.
Proof.
  destruct (hardening_never_fails (failing "kubectl") home ∅ tt) as (A & B & _);
    [by vm_compute|].
  split; [exact A|exact B].
Defined.

(** X4 on a host where [kubectl] fails. *)
Lemma verify_report_witness :
  code (run (failing "kubectl") (Docker.verifyCluster_create home) ∅ tt) = 0
  ∧ code (run (failing "kubectl") (Lima.verifyCluster_create home) ∅ tt) = 0.
Proof.
  destruct (verify_report (failing "kubectl") home ∅ tt) as (A & B & _);
    [by vm_compute|].
  split; [exact A|exact B].
Defined.

(** X8 on a registry where the VM is stopped and the next VM runs: the
    check succeeds, and the step does not start the VM. *)
Lemma vm_running_window_witness :
  status (exec two_vms Lima.vm_running "" fresh).1.2 = 0
  ∧ limactl_calls (trace (run two_vms (Lima.limaVm_create home) ∅ tt))
    = [["limactl"; "list"; "--format"; "json"]; ["limactl"; "list"; "--format"; "json"]].
Proof.
  split; [|by vm_compute].
  apply (vm_running_window two_vms "" fresh).
  exists 0, 1, (q "{`name`:`talos-docker`,`status`:`Stopped`,`arch`:`aarch64`}"),
    (q "{`name`:`default`,`status`:`Running`,`arch`:`aarch64`}").
  split_and!; [by vm_compute..|lia|lia].
Defined.

(** A registry that lists the VM as stopped and nothing else: the step
    starts it. *)
Lemma stopped_vm_is_started :
  limactl_calls (trace (run vm_listed (Lima.limaVm_create home) ∅ tt))
  = [["limactl"; "list"; "--format"; "json"]; ["limactl"; "list"; "--format"; "json"];
     ["limactl"; "start"; "talos-docker"]].
Proof. by vm_compute. Qed.

(** A Docker daemon that answers the third probe: two sleeps, three
    turns, four calls of [docker info]. *)
Lemma docker_answers_third_probe :
  let v := trace (run docker_late (Lima.limaVm_create home) ∅ 0) in
  sleeps v = [5; 5] ∧ iterations v = 3 ∧ calls ["docker"; "info"] v = 4
  ∧ docker_failures docker_late (docker_info home ∅ "") 30
      (after_all docker_late (vm_plan docker_late ∅ 0) 0) = 2.
Proof. by vm_compute. Qed.

(** A daemon that never answers: thirty sleeps, and the step succeeds. *)
Lemma docker_never_answers :
  let r := run (failing "docker") (Lima.limaVm_create home) ∅ tt in
  sleeps (trace r) = repeat 5 30 ∧ code r = 0.
Proof. by vm_compute. Qed.

(** Where no file can be written the configuration step fails. *)
Lemma config_on_read_only_host :
  code (run read_only Lima.createLimaConfig_create ∅ tt) = 1.
Proof. by vm_compute. Qed.

(** When [talosctl] fails throughout, the cluster step still succeeds and
    says that the cluster was created. *)
Lemma failed_creation_is_reported_as_success :
  let r := run (failing "/opt/homebrew/bin/talosctl") Docker.createCluster_create ∅ tt in
  code r = 0
  ∧ last_spawn (trace r) = Some (cluster_create_argv, 1)
  ∧ last (printed (trace r)) = Some ("Talos cluster 'talos-local' created successfully" +:+ nl).
Proof. by vm_compute. Qed.

(** X10 on a cluster of three Ready nodes: no sleep, one turn. *)
Lemma node_wait_exact_witness :
  let r := run cluster_up (Docker.waitForK8s_create home) ∅ tt in
  sleeps (trace r) = [] ∧ iterations (trace r) = 1.
Proof.
  destruct (node_wait_exact cluster_up home ∅ tt) as (Hs & _ & Hi & _);
    [by vm_compute|].
  split; [exact Hs|exact Hi].
Defined.

(** X12 for the home directory of the examples. *)
Lemma kubeconfig_one_path_witness :
  procs (trace (run all_ok (Docker.exportKubeconfig_delete home) ∅ tt))
  = [rm_f "/Users/dev/.kube/talos-config" ∅].
Proof.
  destruct (kubeconfig_one_path all_ok home ∅ tt) as (_ & _ & _ & _ & _ & A & _);
    [by vm_compute|].
  exact A.
Defined.

(** X14 for the home directory of the examples. *)
Lemma talos_dir_holds_config_witness :
  Docker.talosDir home = "/Users/dev/.talos"
  ∧ Docker.talosConfigPath home = "/Users/dev/.talos/config".
Proof.
  destruct (talos_dir_holds_config all_ok home ∅ tt) as (_ & _ & A & B & _);
    [by vm_compute..|].
  split; [exact A|exact B].
Defined.

(** A home directory that is the root: [Join] cleans the double slash
    away. *)
Lemma talos_dir_at_the_root :
  Docker.talosDir "/" = "/.talos" ∧ Docker.kubeconfigPath "/" = "/.kube/talos-config".
Proof. by vm_compute. Qed.

End MoreExamples.
